(** * Outline extraction from PDF layout: a shallow embedding of
      [Challenge_1a/process_pdfs.py]

    The development follows the Python module function by function:
    [analyze_font_styles], [is_bold], [classify_heading],
    [extract_structure_from_pdf] and the loop of [main].  Of
    [Challenge_1b/process_1b.py] it has [parse_pdf_into_chunks] and the
    loop of [main] that ranks the hits of the search.

    Conventions of the embedding.
    - A Python [str] is the list of its code points ([str := list N]), so
      that [len], indexing and slicing count code points as Python does.
    - The character predicates of [str] ([isspace], [isupper], ...) are
      computed on ASCII and read from a table [UnicodeDB] above it: the
      Unicode character database is data of the interpreter, not of this
      repository.
    - A font size is a Python [float]; every finite float is a rational and
      the embedding reads sizes as rationals ([Q]).  [round], [>], the mean
      and the quotient [size / body_font_size] are the exact ones; they
      coincide with the floating-point ones on the sizes a page layout
      produces (font sizes far below 2^26).
    - A Python exception is a value: functions that can raise return an
      [outcome]. *)

From Stdlib Require Import List ZArith NArith QArith Qround Bool Lia.
From Stdlib Require Import Permutation Sorted String Ascii DecimalString.
From Stdlib Require Import DecimalPos DecimalZ.
Import ListNotations.

Local Open Scope Z_scope.

(** ** Python strings *)

Module Py.

Definition str := list N.

(** An ASCII literal as a Python string. *)
Definition u (s : string) : str := map N_of_ascii (list_ascii_of_string s).

Definition len {A : Type} (l : list A) : Z := Z.of_nat (List.length l).

(** The part of the Unicode character database the module consults, for
    code points above ASCII.  [uni_lower s i] is the lower-case expansion
    of the code point at index [i] of [s] (the expansion of a capital sigma
    depends on its neighbours, and some code points expand to several). *)
Record UnicodeDB : Type := {
  uni_isspace : N -> bool;
  uni_isupper : N -> bool;
  uni_islower : N -> bool;
  uni_istitle : N -> bool;
  uni_isdigit : N -> bool;
  uni_isdecimal : N -> bool;
  uni_lower : str -> nat -> str
}.

(** A database with nothing above ASCII: every such code point is caseless,
    is no digit and no space, and lower-cases to itself. *)
Definition ascii_only : UnicodeDB := {|
  uni_isspace := fun _ => false;
  uni_isupper := fun _ => false;
  uni_islower := fun _ => false;
  uni_istitle := fun _ => false;
  uni_isdigit := fun _ => false;
  uni_isdecimal := fun _ => false;
  uni_lower := fun s i => match nth_error s i with Some c => [c] | None => [] end
|}.

Definition is_ascii (c : N) : bool := (c <? 128)%N.

Definition in_range (lo hi c : N) : bool := ((lo <=? c) && (c <=? hi))%N.

Section Unicode.

Variable db : UnicodeDB.

(** [Py_UNICODE_ISSPACE]: on ASCII, TAB..CR, FS..US and the space. *)
Definition ch_isspace (c : N) : bool :=
  if is_ascii c then in_range 9 13 c || in_range 28 32 c else uni_isspace db c.

Definition ch_isupper (c : N) : bool :=
  if is_ascii c then in_range 65 90 c else uni_isupper db c.

Definition ch_islower (c : N) : bool :=
  if is_ascii c then in_range 97 122 c else uni_islower db c.

Definition ch_istitle (c : N) : bool :=
  if is_ascii c then false else uni_istitle db c.

Definition ch_isdigit (c : N) : bool :=
  if is_ascii c then in_range 48 57 c else uni_isdigit db c.

Definition ch_isdecimal (c : N) : bool :=
  if is_ascii c then in_range 48 57 c else uni_isdecimal db c.

(** [str.lower()], code point by code point. *)
Definition lower_at (s : str) (i : nat) (c : N) : str :=
  if is_ascii c then [if in_range 65 90 c then (c + 32)%N else c]
  else uni_lower db s i.

Fixpoint lower_from (s : str) (i : nat) (rest : str) : str :=
  match rest with
  | [] => []
  | c :: r => lower_at s i c ++ lower_from s (S i) r
  end.

Definition lower (s : str) : str := lower_from s 0 s.

(** [str.strip()] with no argument. *)
Fixpoint lstrip (s : str) : str :=
  match s with
  | [] => []
  | c :: r => if ch_isspace c then lstrip r else s
  end.

Definition rstrip (s : str) : str := rev (lstrip (rev s)).

Definition strip (s : str) : str := rstrip (lstrip s).

(** [str.split()] with no argument: the maximal runs of non-space code
    points.  [cur] is the run being read, reversed. *)
Fixpoint split_from (cur : str) (s : str) : list str :=
  match s with
  | [] => match cur with [] => [] | _ => [rev cur] end
  | c :: r =>
      if ch_isspace c
      then match cur with [] => split_from [] r | _ => rev cur :: split_from [] r end
      else split_from (c :: cur) r
  end.

Definition split (s : str) : list str := split_from [] s.

(** [str.islower()]: no upper- or title-case code point and at least one
    lower-case one; a string of one code point is lower-case when that
    code point is. *)
Fixpoint islower_scan (cased : bool) (s : str) : bool :=
  match s with
  | [] => cased
  | c :: r =>
      if ch_isupper c || ch_istitle c then false
      else islower_scan (cased || ch_islower c) r
  end.

Definition islower (s : str) : bool :=
  match s with
  | [] => false
  | [c] => ch_islower c
  | _ => islower_scan false s
  end.

End Unicode.

(** Equality of strings, [sep.join(parts)], [startswith], [endswith] and
    the substring test [needle in hay]. *)
Fixpoint str_eqb (a b : str) : bool :=
  match a, b with
  | [], [] => true
  | x :: a', y :: b' => (x =? y)%N && str_eqb a' b'
  | _, _ => false
  end.

Fixpoint join (sep : str) (parts : list str) : str :=
  match parts with
  | [] => []
  | [p] => p
  | p :: rest => p ++ sep ++ join sep rest
  end.

Fixpoint startswith (s prefix : str) : bool :=
  match prefix, s with
  | [], _ => true
  | p :: prefix', c :: s' => (p =? c)%N && startswith s' prefix'
  | _ :: _, [] => false
  end.

Definition endswith (s suffix : str) : bool := startswith (rev s) (rev suffix).

Definition startswith_any (s : str) (prefixes : list str) : bool :=
  existsb (startswith s) prefixes.

Definition endswith_any (s : str) (suffixes : list str) : bool :=
  existsb (endswith s) suffixes.

Fixpoint contains (hay needle : str) : bool :=
  startswith hay needle ||
  match hay with
  | [] => false
  | _ :: hay' => contains hay' needle
  end.

(** Truth value of a string: non-empty. *)
Definition truthy (s : str) : bool :=
  match s with [] => false | _ => true end.

End Py.

Import Py.

(** ** Regular expressions, as far as [re.match] is asked whether it
       matches *)

Module Regex.

Inductive re : Type :=
| Nul                       (* matches nothing *)
| Eps                       (* the empty string *)
| Cls (p : N -> bool)       (* one code point of a class *)
| Seq (a b : re)
| Alt (a b : re)
| Star (a : re).

Definition Opt (a : re) : re := Alt a Eps.
Definition Plus (a : re) : re := Seq a (Star a).

Fixpoint nullable (r : re) : bool :=
  match r with
  | Nul => false
  | Eps => true
  | Cls _ => false
  | Seq a b => nullable a && nullable b
  | Alt a b => nullable a || nullable b
  | Star _ => true
  end.

(** What is left of [r] after reading [c]. *)
Fixpoint deriv (c : N) (r : re) : re :=
  match r with
  | Nul => Nul
  | Eps => Nul
  | Cls p => if p c then Eps else Nul
  | Seq a b =>
      if nullable a then Alt (Seq (deriv c a) b) (deriv c b)
      else Seq (deriv c a) b
  | Alt a b => Alt (deriv c a) (deriv c b)
  | Star a => Seq (deriv c a) (Star a)
  end.

(** [re.match(r, s)] is not [None]: some prefix of [s] is in the language
    of [r]. *)
Fixpoint matches (r : re) (s : str) : bool :=
  nullable r ||
  match s with
  | [] => false
  | c :: s' => matches (deriv c r) s'
  end.

End Regex.

(** ** Numbers *)

(** [round(x)] of a float: to the nearest integer, halves to the even
    one. *)
Definition py_round (x : Q) : Z :=
  let f := Qfloor x in
  match (x - inject_Z f ?= 1 # 2)%Q with
  | Lt => f
  | Gt => f + 1
  | Eq => if Z.even f then f else f + 1
  end.

Definition Qgtb (x y : Q) : bool :=
  match (x ?= y)%Q with Gt => true | _ => false end.

Fixpoint Qsum (l : list Q) : Q :=
  match l with
  | [] => 0%Q
  | x :: r => (x + Qsum r)%Q
  end.

(** [statistics.mean] of a non-empty list. *)
Definition mean (l : list Q) : Q := (Qsum l / inject_Z (len l))%Q.

(** ** Exceptions *)

Inductive PyExc : Type := IndexError | ZeroDivisionError.

Inductive outcome (A : Type) : Type :=
| Ret (a : A)
| Raise (e : PyExc).

Arguments Ret {A} a.
Arguments Raise {A} e.

Definition bind {A B : Type} (m : outcome A) (k : A -> outcome B) : outcome B :=
  match m with
  | Ret a => k a
  | Raise e => Raise e
  end.

Notation "x <- m ;; k" := (bind m (fun x => k))
  (at level 61, m at next level, right associativity).

(** A loop whose body can raise: the state is threaded through the items
    in order and the first exception ends the loop. *)
Fixpoint for_each {A S : Type} (body : A -> S -> outcome S) (items : list A)
    (s : S) : outcome S :=
  match items with
  | [] => Ret s
  | x :: rest => s' <- body x s ;; for_each body rest s'
  end.

(** [s[0]]. *)
Definition index0 (s : str) : outcome N :=
  match s with
  | [] => Raise IndexError
  | c :: _ => Ret c
  end.

(** [a / b] on integers. *)
Definition truediv (a b : Z) : outcome Q :=
  if b =? 0 then Raise ZeroDivisionError else Ret (inject_Z a / inject_Z b)%Q.

(** ** The layout of a document, as [page.get_text("dict")] gives it *)

Record Span : Type := { text : str; size : Q; font : str }.

Record Line : Type := { spans : list Span }.

(** [type] is 0 for a text block; a block that is not a text block has no
    ["lines"], which [block.get("lines", [])] reads as no line. *)
Record Block : Type := { type : Z; lines : list Line }.

Record Page : Type := { blocks : list Block }.

(** An opened document: its pages, [doc[0]], [doc[1]], ... *)
Definition Doc := list Page.

Inductive Level : Type := H1 | H2 | H3.

(** An entry of the outline, and the value [extract_structure_from_pdf]
    returns. *)
Module Entry.
Record t : Type := make { level : Level; text : str; page : Z }.
End Entry.

Record Structure : Type := { title : str; outline : list Entry.t }.

(** ** [analyze_font_styles] *)

(** [font_sizes], a [defaultdict(int)]: the keys in insertion order, each
    with its count. *)
Definition counter := list (Z * Z).

(** [d[k] += n]: a key that is not there yet is inserted last, from 0. *)
Fixpoint counter_add (k n : Z) (d : counter) : counter :=
  match d with
  | [] => [(k, 0 + n)]
  | (k', v) :: rest =>
      if k' =? k then (k', v + n) :: rest else (k', v) :: counter_add k n rest
  end.

(** [d.get(k)] for the keys of [d]; 0 stands for a key that is not there. *)
Fixpoint counter_get (d : counter) (k : Z) : Z :=
  match d with
  | [] => 0
  | (k', v) :: rest => if k' =? k then v else counter_get rest k
  end.

Definition keys (d : counter) : list Z := map fst d.

(** [max(d, key=d.get)] after its first key: a later key replaces the best
    one only when its count is strictly greater. *)
Fixpoint max_from (best : Z * Z) (d : counter) : Z :=
  match d with
  | [] => fst best
  | (k, v) :: rest =>
      if snd best <? v then max_from (k, v) rest else max_from best rest
  end.

(** The body of the innermost loop, lines 20-22. *)
Definition count_span (d : counter) (span : Span) : counter :=
  if Qgtb (size span) 7
  then counter_add (py_round (size span)) (len (text span)) d
  else d.

(** The spans of a document in the order the loops visit them. *)
Definition line_spans (b : Block) : list Span := flat_map spans (lines b).
Definition page_spans (p : Page) : list Span := flat_map line_spans (blocks p).
Definition doc_spans (doc : Doc) : list Span := flat_map page_spans doc.

Definition font_sizes (doc : Doc) : counter :=
  fold_left count_span (doc_spans doc) [].

Definition analyze_font_styles (doc : Doc) : Z :=
  match font_sizes doc with
  | [] => 12
  | first :: rest => max_from first rest
  end.

(** ** [is_bold] and [classify_heading] *)

Section Classifier.

Variable db : UnicodeDB.

Definition is_bold (span : Span) : bool :=
  let font_name := lower db (font span) in
  contains font_name (u "bold") || contains font_name (u "black")
  || contains font_name (u "heavy").

(** [r'^\s*(\d+(\.\d+)*|[A-Z]|[a-z]|[IVXLCDM]+)\.?\s+'] *)
Definition list_marker_re : Regex.re :=
  let ws := Regex.Cls (ch_isspace db) in
  let digit := Regex.Cls (ch_isdecimal db) in
  let dot := Regex.Cls (N.eqb 46) in
  let roman := Regex.Cls (fun c => existsb (N.eqb c) (u "IVXLCDM")) in
  Regex.Seq (Regex.Star ws)
    (Regex.Seq
       (Regex.Alt
          (Regex.Alt
             (Regex.Alt
                (Regex.Seq (Regex.Plus digit)
                   (Regex.Star (Regex.Seq dot (Regex.Plus digit))))
                (Regex.Cls (in_range 65 90)))
             (Regex.Cls (in_range 97 122)))
          (Regex.Plus roman))
       (Regex.Seq (Regex.Opt dot) (Regex.Plus ws))).

(** The six noise filters, lines 45-61, on the stripped text: [Ret true]
    when one of them rejects the line. *)
Definition rejected (text : str) : outcome bool :=
  let words := split db text in
  if len text <? 3 then Ret true
  else if endswith_any text [u ","; u ";"; [8212%N]; u "."; [8211%N]; u ":"]
          || (islower db text && (4 <? len words)) then Ret true
  else if startswith_any text [u "[["; u "("; u "http"]
          || endswith text (u ")") || contains text (u ".git") then Ret true
  else
    c <- index0 text ;;
    if negb (ch_isupper db c || ch_isdigit db c) then Ret true
    else if 8 <? len words then Ret true
    else if ((len words =? 2) || (len words =? 3))
            && islower db (join (u " ") (tl words)) then Ret true
    else Ret false.

Definition classify_heading (text : str) (span : Span) (body_font_size : Z)
    : outcome (option Level) :=
  let size := py_round (size span) in
  let text := strip db text in
  r <- rejected text ;;
  if r then Ret None
  else
    let is_heading_font := body_font_size <? size in
    let is_bold_font := is_bold span in
    if negb (is_heading_font || is_bold_font) then Ret None
    else
      let is_list_marker := Regex.matches list_marker_re text in
      size_ratio <- truediv size body_font_size ;;
      if Qgtb size_ratio (9 # 5) && is_bold_font then Ret (Some H1)
      else if Qgtb size_ratio (27 # 20)
              || (is_bold_font && Qgtb size_ratio (23 # 20)) then Ret (Some H2)
      else if is_heading_font || is_bold_font || is_list_marker then Ret (Some H3)
      else Ret None.

End Classifier.

(** ** [os.path] on POSIX paths *)

Module Path.

Definition sep : N := 47.      (* "/" *)
Definition extsep : N := 46.   (* "." *)

(** [s.rfind(c)]: the last index of [c] in [s], or -1. *)
Fixpoint rfind_from (c : N) (s : str) (i found : Z) : Z :=
  match s with
  | [] => found
  | x :: rest => rfind_from c rest (i + 1) (if (x =? c)%N then i else found)
  end.

Definition rfind (c : N) (s : str) : Z := rfind_from c s 0 (-1).

(** [s[i:]], [s[:j]] and [s[i:j]] for indices that are not negative. *)
Definition slice_from (s : str) (i : Z) : str := skipn (Z.to_nat i) s.
Definition slice_to (s : str) (j : Z) : str := firstn (Z.to_nat j) s.
Definition slice (s : str) (i j : Z) : str := slice_from (slice_to s j) i.

Definition basename (p : str) : str := slice_from p (rfind sep p + 1).

(** [os.path.splitext]: the extension starts at the last dot of the last
    component, unless that component has only dots before it. *)
Definition splitext (p : str) : str * str :=
  let sepIndex := rfind sep p in
  let dotIndex := rfind extsep p in
  if (sepIndex <? dotIndex)
     && existsb (fun c => negb (c =? extsep)%N) (slice p (sepIndex + 1) dotIndex)
  then (slice_to p dotIndex, slice_from p dotIndex)
  else (p, []).

(** [os.path.join(a, b)]. *)
Definition join (a b : str) : str :=
  if startswith b [sep] then b
  else if negb (truthy a) || endswith a [sep] then a ++ b
  else a ++ [sep] ++ b.

End Path.

(** ** [extract_structure_from_pdf] and [main] *)

Section Extraction.

Variable db : UnicodeDB.

(** [fitz.open]: the document at a path, or [None] where opening raises. *)
Variable fitz_open : str -> option Doc.

(** Title detection, the body of the loop of lines 108-119.  The state is
    [(max_avg_size, title_block)]. *)
Definition title_step (body_font_size : Z) (st : Q * option Block) (block : Block)
    : Q * option Block :=
  if type block =? 0 then
    match filter (fun span => truthy (strip db (text span))) (line_spans block) with
    | [] => st
    | spans =>
        let avg_size := mean (map size spans) in
        if Qgtb avg_size (inject_Z body_font_size * (3 # 2))
           && Qgtb avg_size (fst st)
        then (avg_size, Some block)
        else st
    end
  else st.

Definition find_title_block (body_font_size : Z) (first_page : Page) : option Block :=
  snd (fold_left (title_step body_font_size) (blocks first_page) (0%Q, None)).

(** The text of a line: its span texts joined by a space, stripped. *)
Definition line_text (line : Line) : str :=
  strip db (Py.join (u " ") (map text (spans line))).

(** Lines 122-127. *)
Definition block_title (title_block : Block) : str :=
  Py.join (u " ") (filter truthy (map line_text (lines title_block))).

(** Lines 121-130. *)
Definition choose_title (title_block : option Block) (pdf_path : str) : str :=
  let title := match title_block with
               | Some b => block_title b
               | None => []
               end in
  if negb (truthy title) || (len title <? 5) then Path.basename pdf_path
  else title.

(** Heading detection, the body of the loop over the lines, 139-155. *)
Definition visit_line (title : str) (body_font_size page_num : Z) (line : Line)
    (outline : list Entry.t) : outcome (list Entry.t) :=
  match spans line with
  | [] => Ret outline
  | first_span :: _ =>
      let line_text := line_text line in
      if truthy title && contains title line_text then Ret outline
      else
        level <- classify_heading db line_text first_span body_font_size ;;
        match level with
        | None => Ret outline
        | Some lv =>
            if existsb (fun d => str_eqb (Entry.text d) line_text) outline
            then Ret outline
            else Ret (outline ++ [Entry.make lv line_text (page_num + 1)])
        end
  end.

Definition visit_block (title : str) (body_font_size page_num : Z) (block : Block)
    : list Entry.t -> outcome (list Entry.t) :=
  for_each (visit_line title body_font_size page_num) (lines block).

Definition visit_page (title : str) (body_font_size : Z) (numbered : Z * Page)
    : list Entry.t -> outcome (list Entry.t) :=
  for_each (visit_block title body_font_size (fst numbered)) (blocks (snd numbered)).

(** The pages with their index, [range(len(doc))]. *)
Definition enumerate (doc : Doc) : list (Z * Page) :=
  combine (map Z.of_nat (seq 0 (List.length doc))) doc.

(** [Ret None] is the [return None] of the handler of line 90. *)
Definition extract_structure_from_pdf (pdf_path : str) : outcome (option Structure) :=
  match fitz_open pdf_path with
  | None => Ret None
  | Some doc =>
      match doc with
      | [] => Ret (Some {| title := []; outline := [] |})
      | first_page :: _ =>
          let body_font_size := analyze_font_styles doc in
          let title_block := find_title_block body_font_size first_page in
          let title := choose_title title_block pdf_path in
          outline <- for_each (visit_page title body_font_size) (enumerate doc) [] ;;
          Ret (Some {| title := title; outline := outline |})
      end
  end.

Definition input_dir : str := u "/app/input".
Definition output_dir : str := u "/app/output".

(** The body of the loop of [main], lines 174-187, on the list of the
    files written so far: each with its path and the structure dumped
    into it. *)
Definition main_step (filename : str) (written : list (str * Structure))
    : outcome (list (str * Structure)) :=
  if endswith (lower db filename) (u ".pdf") then
    let pdf_path := Path.join input_dir filename in
    structure <- extract_structure_from_pdf pdf_path ;;
    match structure with
    | Some s =>
        let output_filename := fst (Path.splitext filename) ++ u ".json" in
        Ret (written ++ [(Path.join output_dir output_filename, s)])
    | None => Ret written
    end
  else Ret written.

(** [main] on the listing of the input directory. *)
Definition main (listing : list str) : outcome (list (str * Structure)) :=
  for_each main_step listing [].

End Extraction.

(** ** Vocabulary of the properties *)

(** The accumulated character count of the size [k] in the spans [l]:
    what the spans of raw size above 7 that round to [k] add up to. *)
Fixpoint weight (l : list Span) (k : Z) : Z :=
  match l with
  | [] => 0
  | s :: rest =>
      (if Qgtb (size s) 7 && (py_round (size s) =? k) then len (text s) else 0)
      + weight rest k
  end.

Definition counted (l : list Span) (k : Z) : Prop :=
  exists s, In s l /\ Qgtb (size s) 7 = true /\ py_round (size s) = k.

(** The level of a line that passes the filters, as a function of its
    size ratio, its boldness and whether its size is above the
    baseline. *)
Definition level_of (size_ratio : Q) (is_bold_font is_heading_font is_list_marker : bool)
    : option Level :=
  if Qgtb size_ratio (9 # 5) && is_bold_font then Some H1
  else if Qgtb size_ratio (27 # 20) || (is_bold_font && Qgtb size_ratio (23 # 20))
  then Some H2
  else if is_heading_font || is_bold_font || is_list_marker then Some H3
  else None.

(** [size_ratio] of line 72. *)
Definition size_ratio (span : Span) (body_font_size : Z) : Q :=
  (inject_Z (py_round (size span)) / inject_Z body_font_size)%Q.

(** H1 above H2 above H3. *)
Definition rank (lv : Level) : Z :=
  match lv with H1 => 3 | H2 => 2 | H3 => 1 end.

(** The invariant of the outline under construction. *)
Definition outline_ok (title : str) (o : list Entry.t) : Prop :=
  (forall e, In e o -> contains title (Entry.text e) = false)
  /\ NoDup (map Entry.text o).

(** ** Sample documents *)

Module Sample.

Definition span (t : string) (s : Q) (f : string) : Span :=
  {| text := u t; size := s; font := u f |}.

Definition line (l : list Span) : Line := {| spans := l |}.

Definition text_block (l : list Line) : Block := {| type := 0; lines := l |}.

Definition image_block : Block := {| type := 1; lines := [] |}.

(** A report of two pages: a title of two spans, a heading that comes back
    on the second page, body text, and the last word of the title once
    more as a line of its own. *)
Definition report : Doc :=
  [ {| blocks :=
         [ text_block [line [span "My Great" 24 "Arial-Bold"; span "Title" 24 "Arial"]];
           text_block [line [span "1. Introduction" 18 "Arial-Bold"]];
           text_block
             [line [span "This is the body text of the document, quite long." 12 "Arial"];
              line [span "Title" 18 "Arial-Bold"]];
           image_block ] |};
    {| blocks :=
         [ text_block
             [line [span "1. Introduction" 18 "Arial-Bold"];
              line [span "Second Heading Here" 14 "Arial"];
              line []] ] |} ].

Definition report_structure : Structure :=
  {| title := u "My Great Title";
     outline := [ Entry.make H2 (u "1. Introduction") 1;
                  Entry.make H3 (u "Second Heading Here") 2 ] |}.

(** A scan: one page and no text on it. *)
Definition scan : Doc := [ {| blocks := [ image_block ] |} ].

(** A document of no page. *)
Definition empty : Doc := [].

(** Two spans of the same length in sizes 10 and 12, in both orders. *)
Definition tie : Doc :=
  [ {| blocks := [ text_block [line [span "ab" 10 "Arial"; span "cd" 12 "Arial"]] ] |} ].

Definition tie_swapped : Doc :=
  [ {| blocks := [ text_block [line [span "cd" 12 "Arial"; span "ab" 10 "Arial"]] ] |} ].

(** The same with more text in size 10. *)
Definition no_tie : Doc :=
  [ {| blocks := [ text_block [line [span "abc" 10 "Arial"; span "cd" 12 "Arial"]] ] |} ].

Definition no_tie_swapped : Doc :=
  [ {| blocks := [ text_block [line [span "cd" 12 "Arial"; span "abc" 10 "Arial"]] ] |} ].

(** Small print of size 7.3: above 7, and rounded to 7. *)
Definition small_print : Span := span "abc" (73 # 10) "Arial".

(** The input directory: three documents, and a file that does not open. *)
Definition files (pdf_path : str) : option Doc :=
  if str_eqb pdf_path (u "/app/input/report.pdf") then Some report
  else if str_eqb pdf_path (u "/app/input/scan.pdf") then Some scan
  else if str_eqb pdf_path (u "/app/input/empty.pdf") then Some empty
  else None.

End Sample.

(** The file name of a path without its extension, in the words of the
    specification of the title fallback: [os.path.splitext] of the base
    name.  The code computes it for the output file only. *)
Definition file_stem (pdf_path : str) : str :=
  fst (Path.splitext (Path.basename pdf_path)).

(** ** Vocabulary of the further properties *)




(** The entry [e] of an outline comes from a line of the document [doc]:
    a line of the page [Entry.page e] that has a span, whose text is the
    text of the entry and which the classifier gives the level of the
    entry. *)
Definition entry_from_line (db : UnicodeDB) (doc : Doc) (e : Entry.t) : Prop :=
  exists p block line first_span rest,
    1 <= Entry.page e <= len doc
    /\ nth_error doc (Z.to_nat (Entry.page e - 1)) = Some p
    /\ In block (blocks p) /\ In line (lines block)
    /\ spans line = first_span :: rest
    /\ Entry.text e = line_text db line
    /\ classify_heading db (line_text db line) first_span (analyze_font_styles doc)
       = Ret (Some (Entry.level e)).

(** What the loop of [main] writes for one name of the listing. *)
Definition written_for (db : UnicodeDB) (fitz_open : str -> option Doc) (filename : str)
    : list (str * Structure) :=
  if endswith (lower db filename) (u ".pdf") then
    match extract_structure_from_pdf db fitz_open (Path.join input_dir filename) with
    | Ret (Some s) =>
        [(Path.join output_dir (fst (Path.splitext filename) ++ u ".json"), s)]
    | _ => []
    end
  else [].

Module MoreSamples.

(** Footnotes only: nothing above size 7. *)
Definition fine_print : Doc :=
  [ {| blocks :=
         [ Sample.text_block
             [Sample.line [Sample.span "see the appendix" 6 "Arial";
                           Sample.span "for details" 7 "Arial"]] ] |} ].

(** The first page of the sample report. *)
Definition report_first_page : Page :=
  {| blocks :=
       [ Sample.text_block
           [Sample.line [Sample.span "My Great" 24 "Arial-Bold";
                         Sample.span "Title" 24 "Arial"]];
         Sample.text_block [Sample.line [Sample.span "1. Introduction" 18 "Arial-Bold"]];
         Sample.text_block
           [Sample.line
              [Sample.span "This is the body text of the document, quite long." 12 "Arial"];
            Sample.line [Sample.span "Title" 18 "Arial-Bold"]];
         Sample.image_block ] |}.


End MoreSamples.

(** ** [Challenge_1b/process_1b.py]: the chunks of a document and the
       ranking of the hits *)

(** [str(n)] of an integer. *)
Definition str_of_int (z : Z) : str := u (NilZero.string_of_int (Z.to_int z)).

(** [re.sub(r'\s+', ' ', s)]: every maximal run of spaces becomes one
    space character.  [in_run] tells that the code point before was a
    space. *)
Fixpoint sub_spaces_from (db : UnicodeDB) (in_run : bool) (s : str) : str :=
  match s with
  | [] => []
  | c :: r =>
      if ch_isspace db c
      then if in_run then sub_spaces_from db true r
           else 32%N :: sub_spaces_from db true r
      else c :: sub_spaces_from db false r
  end.

Definition sub_spaces (db : UnicodeDB) (s : str) : str := sub_spaces_from db false s.

(** [l[i]] on a list, with the negative indices of Python. *)
Definition getitem {A : Type} (l : list A) (i : Z) : outcome A :=
  let j := if i <? 0 then i + len l else i in
  if (j <? 0) || (len l <=? j) then Raise IndexError
  else match nth_error l (Z.to_nat j) with
       | Some x => Ret x
       | None => Raise IndexError
       end.

Module Chunk.
Record t : Type := make { doc_name : str; page_num : Z; chunk_id : str; text : str }.
End Chunk.

(** A document as [parse_pdf_into_chunks] reads it: for each page the texts
    [block[4]] of the blocks of [get_text("blocks")], or [None] for a page
    on which [get_text] raises. *)
Definition TextDoc := list (option (list str)).

Section Chunks.

Variable db : UnicodeDB.
Variable fitz_open : str -> option TextDoc.

(** [enumerate(blocks)] *)
Definition enumerate_blocks (blocks : list str) : list (Z * str) :=
  combine (map Z.of_nat (seq 0 (List.length blocks))) blocks.

(** The body of the loop over the blocks, lines 38-47. *)
Definition add_chunk (pdf_path : str) (page_num : Z) (chunks : list Chunk.t)
    (numbered : Z * str) : list Chunk.t :=
  let text := strip db (snd numbered) in
  let text := sub_spaces db text in
  if 50 <? len text then
    chunks ++
    [Chunk.make (Path.basename pdf_path) (page_num + 1)
       (Path.basename pdf_path ++ u "_p" ++ str_of_int (page_num + 1)
        ++ u "_b" ++ str_of_int (fst numbered))
       text]
  else chunks.

(** The loop over the pages from the page [page_num] on, inside the [try]:
    an exception ends it, and the chunks made so far are what is left. *)
Fixpoint parse_pages (pdf_path : str) (page_num : Z) (pages : TextDoc)
    (chunks : list Chunk.t) : list Chunk.t :=
  match pages with
  | [] => chunks
  | None :: _ => chunks
  | Some blocks :: rest =>
      parse_pages pdf_path (page_num + 1) rest
        (fold_left (add_chunk pdf_path page_num) (enumerate_blocks blocks) chunks)
  end.

Definition parse_pdf_into_chunks (pdf_path : str) : list Chunk.t :=
  match fitz_open pdf_path with
  | None => []
  | Some doc => parse_pages pdf_path 0 doc []
  end.

End Chunks.

(** The hits of the semantic search and the two lists made of them, step 5
    of [main], lines 121-152.  The scores are floats; [Score] stands for
    them and [round4] for [round(x, 4)]. *)
Module Hit.
Record t (Score : Type) : Type := make { corpus_id : Z; score : Score }.
Arguments make {Score}.
Arguments corpus_id {Score}.
Arguments score {Score}.
End Hit.

Module SubSection.
Record t (Score : Type) : Type := make {
  document : str;
  page_number : Z;
  refined_text : str;
  importance_rank : Z;
  score : Score
}.
Arguments make {Score}.
Arguments document {Score}.
Arguments page_number {Score}.
Arguments refined_text {Score}.
Arguments importance_rank {Score}.
Arguments score {Score}.
End SubSection.

Module ExtractedSection.
Record t : Type := make {
  document : str;
  page_number : Z;
  section_title : str;
  importance_rank : Z
}.
Definition key (s : t) : str * Z := (document s, page_number s).
End ExtractedSection.

Module Ranking.

(** The variables of the loop. *)
Record state (Score : Type) : Type := make {
  sub_section_analysis : list (SubSection.t Score);
  extracted_sections : list ExtractedSection.t;
  added_sections : list (str * Z);
  rank : Z
}.
Arguments make {Score}.
Arguments sub_section_analysis {Score}.
Arguments extracted_sections {Score}.
Arguments added_sections {Score}.
Arguments rank {Score}.

(** [key in added_sections] *)
Definition mem (k : str * Z) (added : list (str * Z)) : bool :=
  existsb (fun k' => str_eqb (fst k') (fst k) && (snd k' =? snd k)) added.

Section Loop.

Variable Score : Type.
Variable round4 : Score -> Score.

Definition init : state Score := make [] [] [] 1.

(** The body of the loop, lines 129-152. *)
Definition visit_hit (all_chunks : list Chunk.t) (hit : Hit.t Score)
    (st : state Score) : outcome (state Score) :=
  chunk <- getitem all_chunks (Hit.corpus_id hit) ;;
  let subs :=
    if len (sub_section_analysis st) <? 20 then
      sub_section_analysis st ++
      [SubSection.make (Chunk.doc_name chunk) (Chunk.page_num chunk)
         (Chunk.text chunk) (len (sub_section_analysis st) + 1)
         (round4 (Hit.score hit))]
    else sub_section_analysis st in
  let section_key := (Chunk.doc_name chunk, Chunk.page_num chunk) in
  if negb (mem section_key (added_sections st))
     && (len (extracted_sections st) <? 10)
  then
    Ret (make subs
           (extracted_sections st ++
            [ExtractedSection.make (Chunk.doc_name chunk) (Chunk.page_num chunk)
               (u "Content from page " ++ str_of_int (Chunk.page_num chunk))
               (rank st)])
           (section_key :: added_sections st)
           (rank st + 1))
  else Ret (make subs (extracted_sections st) (added_sections st) (rank st)).

Definition rank_hits (all_chunks : list Chunk.t) (hits : list (Hit.t Score))
    : outcome (state Score) :=
  for_each (visit_hit all_chunks) hits init.

End Loop.

End Ranking.

Module TextSamples.

Definition paragraph : str :=
  u "  The committee met on   Tuesday to review the annual budget and the plan.  ".

(** Two pages: a heading and a paragraph on the first, a paragraph on the
    second. *)
Definition minutes : TextDoc :=
  [ Some [u "Minutes"; paragraph]; Some [paragraph] ].

(** The same, with a first page that cannot be read after it. *)
Definition damaged : TextDoc :=
  [ Some [u "Minutes"; paragraph]; None; Some [paragraph] ].

Definition files (pdf_path : str) : option TextDoc :=
  if str_eqb pdf_path (u "/app/input/docs/minutes.pdf") then Some minutes
  else if str_eqb pdf_path (u "/app/input/docs/damaged.pdf") then Some damaged
  else None.

(** The chunk of the paragraph of the first page of the minutes. *)
Definition first_chunk : Chunk.t :=
  Chunk.make (u "minutes.pdf") 1 (u "minutes.pdf_p1_b1")
    (u "The committee met on Tuesday to review the annual budget and the plan.").

(** Three chunks of two pages, and hits on them with scores in
    thousandths; the last hit counts from the end of the list. *)
Definition chunks : list Chunk.t :=
  [ Chunk.make (u "minutes.pdf") 1 (u "minutes.pdf_p1_b1") (u "budget");
    Chunk.make (u "minutes.pdf") 1 (u "minutes.pdf_p1_b2") (u "plan");
    Chunk.make (u "minutes.pdf") 2 (u "minutes.pdf_p2_b0") (u "votes") ].

Definition hits : list (Hit.t Z) :=
  [ Hit.make 1 912; Hit.make 0 850; Hit.make (-1) 644 ].

Definition ranked : Ranking.state Z :=
  Ranking.make
    [ SubSection.make (u "minutes.pdf") 1 (u "plan") 1 912;
      SubSection.make (u "minutes.pdf") 1 (u "budget") 2 850;
      SubSection.make (u "minutes.pdf") 2 (u "votes") 3 644 ]
    [ ExtractedSection.make (u "minutes.pdf") 1 (u "Content from page 1") 1;
      ExtractedSection.make (u "minutes.pdf") 2 (u "Content from page 2") 2 ]
    [ (u "minutes.pdf", 2); (u "minutes.pdf", 1) ]
    3.

End TextSamples.

(** The chunk [c] comes from a block of the document [doc] at [pdf_path]:
    the block of index [i] of a page that was read, with the number of the
    page, the cleaned text of the block and the identifier made of both
    indices. *)
Definition chunk_from_block (db : UnicodeDB) (pdf_path : str) (doc : TextDoc)
    (c : Chunk.t) : Prop :=
  exists blocks i block4,
    1 <= Chunk.page_num c <= len doc
    /\ nth_error doc (Z.to_nat (Chunk.page_num c - 1)) = Some (Some blocks)
    /\ nth_error blocks i = Some block4
    /\ Chunk.text c = sub_spaces db (strip db block4)
    /\ Chunk.doc_name c = Path.basename pdf_path
    /\ Chunk.chunk_id c
       = Path.basename pdf_path ++ u "_p" ++ str_of_int (Chunk.page_num c)
         ++ u "_b" ++ str_of_int (Z.of_nat i).

(** No space after a space; [prev_space] tells that a space comes just
    before the string. *)
Fixpoint well_spaced (db : UnicodeDB) (prev_space : bool) (t : str) : Prop :=
  match t with
  | [] => True
  | c :: r =>
      (prev_space = true -> ch_isspace db c = false)
      /\ well_spaced db (ch_isspace db c) r
  end.

(** The chunk that [add_chunk] makes of the block [block4] of index [i] on
    the page [page_num]. *)
Definition chunk_of (db : UnicodeDB) (pdf_path : str) (page_num i : Z)
    (block4 : str) : Chunk.t :=
  Chunk.make (Path.basename pdf_path) (page_num + 1)
    (Path.basename pdf_path ++ u "_p" ++ str_of_int (page_num + 1)
     ++ u "_b" ++ str_of_int i)
    (sub_spaces db (strip db block4)).

(** The ranks 1, 2, ..., [n]. *)
Definition ranks (n : nat) : list Z := map Z.of_nat (seq 1 n).

(** The invariant of the loop over the hits. *)
Definition ranking_ok {Score : Type} (all_chunks : list Chunk.t)
    (st : Ranking.state Score) : Prop :=
  len (Ranking.sub_section_analysis st) <= 20
  /\ map SubSection.importance_rank (Ranking.sub_section_analysis st)
     = ranks (List.length (Ranking.sub_section_analysis st))
  /\ len (Ranking.extracted_sections st) <= 10
  /\ map ExtractedSection.importance_rank (Ranking.extracted_sections st)
     = ranks (List.length (Ranking.extracted_sections st))
  /\ Ranking.rank st = len (Ranking.extracted_sections st) + 1
  /\ map ExtractedSection.key (Ranking.extracted_sections st)
     = rev (Ranking.added_sections st)
  /\ NoDup (Ranking.added_sections st)
  /\ (forall s, In s (Ranking.extracted_sections st) ->
        exists chunk, In chunk all_chunks
          /\ ExtractedSection.document s = Chunk.doc_name chunk
          /\ ExtractedSection.page_number s = Chunk.page_num chunk
          /\ ExtractedSection.section_title s
             = u "Content from page " ++ str_of_int (Chunk.page_num chunk))
  /\ (forall s, In s (Ranking.sub_section_analysis st) ->
        exists chunk, In chunk all_chunks
          /\ SubSection.document s = Chunk.doc_name chunk
          /\ SubSection.page_number s = Chunk.page_num chunk
          /\ SubSection.refined_text s = Chunk.text chunk).

(** The chunks of the block of index [fst numbered] and of the pages from
    the page [page_num] on, as lists: what the two loops append. *)
Definition block_chunks (db : UnicodeDB) (pdf_path : str) (page_num : Z)
    (numbered : Z * str) : list Chunk.t :=
  if 50 <? len (sub_spaces db (strip db (snd numbered)))
  then [chunk_of db pdf_path page_num (fst numbered) (snd numbered)]
  else [].

Fixpoint page_chunks (db : UnicodeDB) (pdf_path : str) (page_num : Z)
    (pages : TextDoc) : list Chunk.t :=
  match pages with
  | [] => []
  | None :: _ => []
  | Some blocks :: rest =>
      flat_map (block_chunks db pdf_path page_num) (enumerate_blocks blocks)
      ++ page_chunks db pdf_path (page_num + 1) rest
  end.

(** * Properties *)

(** ** Strings *)

Lemma str_eqb_eq (a b : str) : str_eqb a b = true <-> a = b.
Proof.
  revert b; induction a as [|x a IH]; intros [|y b]; simpl; split;
    try congruence; try reflexivity.
  - intros H. apply andb_true_iff in H as [Hx Hab].
    apply N.eqb_eq in Hx. apply IH in Hab. congruence.
  - intros H. injection H as -> ->.
    rewrite N.eqb_refl. simpl. now apply IH.
Qed.

Lemma startswith_refl (s : str) : startswith s s = true.
Proof. induction s as [|c s IH]; simpl; [reflexivity|]. now rewrite N.eqb_refl. Qed.

Lemma contains_refl (s : str) : contains s s = true.
Proof. destruct s; simpl; [reflexivity|]. now rewrite N.eqb_refl, startswith_refl. Qed.

(** Only the empty string occurs in the empty string. *)
Lemma contains_nil (needle : str) : contains [] needle = true -> needle = [].
Proof. destruct needle; simpl; [reflexivity | discriminate]. Qed.

Lemma len_nonneg {A : Type} (l : list A) : 0 <= len l.
Proof. unfold len. lia. Qed.

(** ** Loops *)

Lemma for_each_invariant {A S : Type} (P : S -> Prop)
    (body : A -> S -> outcome S) (items : list A) :
  (forall x s s', In x items -> P s -> body x s = Ret s' -> P s') ->
  forall s s', P s -> for_each body items s = Ret s' -> P s'.
Proof.
  induction items as [|x items IH]; simpl; intros Hbody s s' Hs Hrun.
  - now injection Hrun as <-.
  - destruct (body x s) as [s1|e] eqn:Hx; simpl in Hrun; [|discriminate].
    apply (IH (fun y t t' Hy => Hbody y t t' (or_intror Hy)) s1 s'); auto.
    apply (Hbody x s s1); auto.
Qed.

Lemma for_each_returns {A S : Type} (body : A -> S -> outcome S) (items : list A) :
  (forall x s, In x items -> exists s', body x s = Ret s') ->
  forall s, exists s', for_each body items s = Ret s'.
Proof.
  induction items as [|x items IH]; simpl; intros Hbody s.
  - now exists s.
  - destruct (Hbody x s (or_introl eq_refl)) as [s1 ->]. simpl.
    apply IH. intros y t Hy. apply Hbody. now right.
Qed.

(** ** Rounding and comparison *)

Lemma Qgtb_spec (x y : Q) : Qgtb x y = true <-> (y < x)%Q.
Proof.
  unfold Qgtb. rewrite Qgt_alt.
  destruct (x ?= y)%Q; split; congruence.
Qed.

Lemma Qgtb_false (x y : Q) : Qgtb x y = false <-> (x <= y)%Q.
Proof.
  unfold Qgtb. rewrite Qle_alt.
  destruct (x ?= y)%Q; split; congruence.
Qed.

Lemma Qgtb_mono (x y c : Q) : (x <= y)%Q -> Qgtb x c = true -> Qgtb y c = true.
Proof.
  rewrite !Qgtb_spec. intros Hxy Hc. eapply Qlt_le_trans; eauto.
Qed.

Lemma py_round_floor (x : Q) : Qfloor x <= py_round x <= Qfloor x + 1.
Proof.
  unfold py_round.
  destruct (x - inject_Z (Qfloor x) ?= 1 # 2)%Q; try lia.
  destruct (Z.even (Qfloor x)); lia.
Qed.

(** A size above 7 rounds to 7 at least. *)
Lemma py_round_above_7 (x : Q) : (7 < x)%Q -> 7 <= py_round x.
Proof.
  intros Hx.
  assert (H7 : 7 <= Qfloor x).
  { change 7 with (Qfloor (inject_Z 7)) at 1.
    - apply Qfloor_resp_le. now apply Qlt_le_weak. }
  pose proof (py_round_floor x). lia.
Qed.

(** Whatever rounds above 7 is above 7. *)
Lemma py_round_gt_7 (x : Q) : 7 < py_round x -> (7 < x)%Q.
Proof.
  intros Hr. unfold py_round in Hr.
  pose proof (Qfloor_le x) as Hfl.
  destruct (Z_le_gt_dec 8 (Qfloor x)) as [H8|H8].
  - eapply Qlt_le_trans; [|exact Hfl].
    change (inject_Z 7 < inject_Z (Qfloor x))%Q. rewrite <- Zlt_Qlt. lia.
  - destruct (x - inject_Z (Qfloor x) ?= 1 # 2)%Q eqn:Hc; try lia.
    + assert (Hf : Qfloor x = 7) by (destruct (Z.even (Qfloor x)); lia).
      apply Qeq_alt in Hc. rewrite Hf in Hc.
      assert (Hx : (x == 7 + (1 # 2))%Q).
      { rewrite <- Hc. change (inject_Z 7) with 7%Q. ring. }
      rewrite Hx. reflexivity.
    + assert (Hf : Qfloor x = 7) by lia.
      apply Qgt_alt in Hc. rewrite Hf in Hc.
      apply Qlt_trans with (7 + (1 # 2))%Q; [reflexivity|].
      apply Qplus_lt_l with (z := (- inject_Z 7)%Q).
      change (inject_Z 7) with 7%Q in *.
      eapply Qlt_le_trans; [|apply Qle_refl].
      eapply Qle_lt_trans; [|exact Hc].
      apply Qle_lteq. right. ring.
Qed.

(** ** The histogram of font sizes *)

Lemma counter_get_add (d : counter) (k n k' : Z) :
  counter_get (counter_add k n d) k' =
  if k' =? k then counter_get d k' + n else counter_get d k'.
Proof.
  induction d as [|[k0 v] d IH]; simpl.
  - destruct (Z.eqb_spec k k'), (Z.eqb_spec k' k); subst; try lia; reflexivity.
  - destruct (Z.eqb_spec k0 k) as [->|Hk0]; simpl.
    + destruct (Z.eqb_spec k k'), (Z.eqb_spec k' k); subst; try lia; reflexivity.
    + destruct (Z.eqb_spec k0 k') as [->|Hk0'].
      * destruct (Z.eqb_spec k' k); [congruence | reflexivity].
      * exact IH.
Qed.

Lemma keys_add (d : counter) (k n k' : Z) :
  In k' (keys (counter_add k n d)) <-> k' = k \/ In k' (keys d).
Proof.
  induction d as [|[k0 v] d IH]; simpl.
  - intuition congruence.
  - destruct (Z.eqb_spec k0 k) as [->|Hk0]; simpl.
    + intuition congruence.
    + rewrite IH. intuition congruence.
Qed.

Lemma keys_add_NoDup (d : counter) (k n : Z) :
  NoDup (keys d) -> NoDup (keys (counter_add k n d)).
Proof.
  induction d as [|[k0 v] d IH]; simpl; intros Hd.
  - constructor; [intros [] | constructor].
  - inversion Hd as [|? ? Hk0 Hd']; subst.
    destruct (Z.eqb_spec k0 k) as [->|Hne]; simpl.
    + now constructor.
    + constructor; [|now apply IH].
      rewrite (keys_add d k n k0). intuition congruence.
Qed.

(** With distinct keys, the count stored with a key is what [get] reads. *)
Lemma counter_get_In (d : counter) (k v : Z) :
  NoDup (keys d) -> In (k, v) d -> counter_get d k = v.
Proof.
  induction d as [|[k0 v0] d IH]; simpl; intros Hd Hin; [contradiction|].
  inversion Hd as [|? ? Hk0 Hd']; subst.
  destruct Hin as [Heq|Hin].
  - injection Heq as -> ->. now rewrite Z.eqb_refl.
  - destruct (Z.eqb_spec k0 k) as [->|Hne]; [|now apply IH].
    exfalso. apply Hk0. change k with (fst (k, v)). now apply in_map.
Qed.

Lemma counter_get_count_spans (l : list Span) (d : counter) (k : Z) :
  counter_get (fold_left count_span l d) k = counter_get d k + weight l k.
Proof.
  revert d; induction l as [|s l IH]; intros d; simpl; [lia|].
  rewrite IH. unfold count_span.
  destruct (Qgtb (size s) 7); simpl; [|lia].
  rewrite counter_get_add, (Z.eqb_sym k).
  destruct (py_round (size s) =? k); lia.
Qed.

Lemma keys_count_spans (l : list Span) (d : counter) (k : Z) :
  In k (keys (fold_left count_span l d)) <-> In k (keys d) \/ counted l k.
Proof.
  revert d; induction l as [|s l IH]; intros d; simpl.
  - split; [now left | intros [H|(s & [] & _)]; exact H].
  - rewrite IH. unfold count_span, counted.
    destruct (Qgtb (size s) 7) eqn:Hs.
    + rewrite keys_add. split.
      * intros [[->|H]|(s' & Hin & H7 & Hr)]; auto.
        -- right. exists s. simpl. auto.
        -- right. exists s'. simpl. auto.
      * intros [H|(s' & [<-|Hin] & H7 & Hr)]; auto.
        right. exists s'. auto.
    + split.
      * intros [H|(s' & Hin & H7 & Hr)]; auto.
        right. exists s'. simpl. auto.
      * intros [H|(s' & [<-|Hin] & H7 & Hr)]; auto; [congruence|].
        right. exists s'. auto.
Qed.

Lemma keys_count_spans_NoDup (l : list Span) (d : counter) :
  NoDup (keys d) -> NoDup (keys (fold_left count_span l d)).
Proof.
  revert d; induction l as [|s l IH]; intros d Hd; simpl; [exact Hd|].
  apply IH. unfold count_span.
  destruct (Qgtb (size s) 7); [now apply keys_add_NoDup | exact Hd].
Qed.

Lemma weight_Permutation (l l' : list Span) (k : Z) :
  Permutation l l' -> weight l k = weight l' k.
Proof.
  induction 1; simpl; lia.
Qed.

Lemma counted_Permutation (l l' : list Span) (k : Z) :
  Permutation l l' -> counted l k -> counted l' k.
Proof.
  intros Hp (s & Hin & H). exists s. split; [|exact H].
  eapply Permutation_in; eauto.
Qed.

(** [max] returns a key that is there, and no key has a greater count. *)
Lemma max_from_spec (d : counter) (best : Z * Z) :
  exists v, In (max_from best d, v) (best :: d) /\
            forall k' v', In (k', v') (best :: d) -> v' <= v.
Proof.
  revert best; induction d as [|[k v] d IH]; intros [bk bv]; simpl.
  - exists bv. split; [now left|]. intros k' v' [H|[]]. injection H as _ <-. lia.
  - destruct (Z.ltb_spec bv v) as [Hlt|Hge].
    + destruct (IH (k, v)) as (w & Hin & Hmax). exists w. split.
      * simpl in Hin. tauto.
      * intros k' v' [H|[H|H]].
        -- injection H as _ <-. specialize (Hmax k v (or_introl eq_refl)). lia.
        -- apply (Hmax k' v'). now left.
        -- apply (Hmax k' v'). now right.
    + destruct (IH (bk, bv)) as (w & Hin & Hmax). exists w. split.
      * simpl in Hin. simpl. tauto.
      * intros k' v' [H|[H|H]].
        -- apply (Hmax k' v'). now left.
        -- injection H as _ <-. specialize (Hmax bk bv (or_introl eq_refl)). lia.
        -- apply (Hmax k' v'). now right.
Qed.

Lemma font_sizes_NoDup (doc : Doc) : NoDup (keys (font_sizes doc)).
Proof. apply keys_count_spans_NoDup. constructor. Qed.

Lemma font_sizes_key (doc : Doc) (k : Z) :
  In k (keys (font_sizes doc)) <-> counted (doc_spans doc) k.
Proof.
  unfold font_sizes. rewrite keys_count_spans. simpl. tauto.
Qed.

Lemma font_sizes_get (doc : Doc) (k : Z) :
  counter_get (font_sizes doc) k = weight (doc_spans doc) k.
Proof.
  unfold font_sizes. now rewrite counter_get_count_spans.
Qed.

(** The baseline of a document with a non-empty histogram is one of its
    keys, of the greatest count. *)
Lemma analyze_font_styles_max (doc : Doc) :
  font_sizes doc <> [] ->
  In (analyze_font_styles doc) (keys (font_sizes doc)) /\
  forall k, In k (keys (font_sizes doc)) ->
    counter_get (font_sizes doc) k
    <= counter_get (font_sizes doc) (analyze_font_styles doc).
Proof.
  intros Hne. pose proof (font_sizes_NoDup doc) as Hnd.
  unfold analyze_font_styles.
  destruct (font_sizes doc) as [|first rest]; [congruence|].
  destruct (max_from_spec rest first) as (v & Hin & Hmax).
  split.
  - change (max_from first rest) with (fst (max_from first rest, v)).
    now apply in_map.
  - intros k Hk. apply in_map_iff in Hk as ([k' v'] & <- & Hk).
    cbn [fst].
    rewrite (counter_get_In _ _ _ Hnd Hk), (counter_get_In _ _ _ Hnd Hin).
    eapply Hmax; eauto.
Qed.

Lemma analyze_font_styles_default (doc : Doc) :
  font_sizes doc = [] -> analyze_font_styles doc = 12.
Proof. unfold analyze_font_styles. now intros ->. Qed.

(** The baseline is a positive integer: 12, or the rounding of a size above
    7. *)
Lemma analyze_font_styles_pos (doc : Doc) : 0 < analyze_font_styles doc.
Proof.
  destruct (font_sizes doc) as [|first rest] eqn:Hd.
  - rewrite analyze_font_styles_default; [lia | exact Hd].
  - destruct (analyze_font_styles_max doc) as [Hin _]; [congruence|].
    apply font_sizes_key in Hin as (s & _ & H7 & <-).
    apply Qgtb_spec in H7. pose proof (py_round_above_7 _ H7). lia.
Qed.

(** C3 (as amended).  When one rounded size has the strictly largest
    accumulated character count (no other size of the histogram ties with
    the baseline), the baseline is the same for every order of the spans:
    two documents whose spans are a permutation of one another get the same
    baseline. *)
Theorem baseline_permutation_invariant (d1 d2 : Doc) :
  Permutation (doc_spans d1) (doc_spans d2) ->
  (forall k, In k (keys (font_sizes d1)) -> k <> analyze_font_styles d1 ->
     counter_get (font_sizes d1) k
     < counter_get (font_sizes d1) (analyze_font_styles d1)) ->
  analyze_font_styles d2 = analyze_font_styles d1.
Proof.
  intros Hperm Hstrict.
  assert (Hkeys : forall k, In k (keys (font_sizes d2)) <-> In k (keys (font_sizes d1))).
  { intros k. rewrite !font_sizes_key. split; apply counted_Permutation;
      [apply Permutation_sym|]; exact Hperm. }
  assert (Hget : forall k, counter_get (font_sizes d2) k = counter_get (font_sizes d1) k).
  { intros k. rewrite !font_sizes_get. symmetry. now apply weight_Permutation. }
  destruct (font_sizes d1) as [|f1 r1] eqn:E1.
  - destruct (font_sizes d2) as [|[k2 v2] r2] eqn:E2.
    + now rewrite !analyze_font_styles_default.
    + destruct (proj1 (Hkeys k2)). now left.
  - destruct (font_sizes d2) as [|f2 r2] eqn:E2.
    + destruct (proj2 (Hkeys (fst f1))). now left.
    + destruct (analyze_font_styles_max d1) as [Hin1 Hmax1]; [congruence|].
      destruct (analyze_font_styles_max d2) as [Hin2 Hmax2]; [congruence|].
      rewrite E1 in Hin1, Hmax1. rewrite E2 in Hin2, Hmax2.
      destruct (Z.eq_dec (analyze_font_styles d2) (analyze_font_styles d1))
        as [Heq|Hne]; [exact Heq|].
      exfalso.
      pose proof (Hstrict _ (proj1 (Hkeys _) Hin2) Hne) as Hlt.
      pose proof (Hmax2 _ (proj2 (Hkeys _) Hin1)) as Hle.
      rewrite !Hget in Hle. lia.
Qed.

(** C4 (as amended).  The histogram accumulates the character count of a
    span under its rounded size exactly when the raw size of the span
    exceeds 7; a span whose raw size is at most 7 leaves the histogram as
    it is.  Every span whose rounded size exceeds 7 is among the
    former. *)
Theorem count_span_above_7 (d : counter) (span : Span) :
  ((7 < size span)%Q ->
     forall k, counter_get (count_span d span) k =
               if k =? py_round (size span)
               then counter_get d k + len (text span)
               else counter_get d k)
  /\ ((size span <= 7)%Q -> count_span d span = d)
  /\ (7 < py_round (size span) -> (7 < size span)%Q).
Proof.
  unfold count_span. repeat split.
  - intros H7 k. apply Qgtb_spec in H7. rewrite H7. apply counter_get_add.
  - intros H7. apply Qgtb_false in H7. now rewrite H7.
  - apply py_round_gt_7.
Qed.

(** ** The classifier *)

Section ClassifierFacts.

Variable db : UnicodeDB.

(** The filters never raise: [text[0]] is read only from a text of three
    code points or more. *)
Lemma rejected_returns (text : str) : exists b, rejected db text = Ret b.
Proof.
  unfold rejected.
  destruct (Z.ltb_spec (len text) 3) as [Hlt|Hge]; [now exists true|].
  destruct (_ || _); [now exists true|].
  destruct (_ || _); [now exists true|].
  destruct text as [|c text]; [cbv in Hge; now destruct Hge|].
  simpl.
  destruct (negb _); [now exists true|].
  destruct (8 <? _); [now exists true|].
  destruct (_ && _); [now exists true | now exists false].
Qed.

Lemma rejected_short (text : str) : len text < 3 -> rejected db text = Ret true.
Proof.
  intros H. unfold rejected.
  now destruct (Z.ltb_spec (len text) 3) as [_|Hge]; [|lia].
Qed.

Lemma truediv_nonzero (a b : Z) :
  b <> 0 -> truediv a b = Ret (inject_Z a / inject_Z b)%Q.
Proof. unfold truediv. intros H. now destruct (Z.eqb_spec b 0). Qed.

Lemma truediv_Ret (a b : Z) (q : Q) :
  truediv a b = Ret q -> q = (inject_Z a / inject_Z b)%Q.
Proof. unfold truediv. destruct (b =? 0); congruence. Qed.

(** What [classify_heading] returns when it returns a level. *)
Lemma classify_heading_level (text : str) (span : Span) (body_font_size : Z)
    (lv : Level) :
  classify_heading db text span body_font_size = Ret (Some lv) ->
  level_of (size_ratio span body_font_size) (is_bold db span)
    (body_font_size <? py_round (size span))
    (Regex.matches (list_marker_re db) (strip db text)) = Some lv.
Proof.
  unfold classify_heading, level_of, size_ratio.
  destruct (rejected db (strip db text)) as [[|]|e]; simpl; try discriminate.
  destruct (negb _); [discriminate|].
  destruct (truediv _ _) as [q|e] eqn:Hq; simpl; [|discriminate].
  apply truediv_Ret in Hq. subst q.
  repeat match goal with
         | |- context [if ?c then _ else _] => destruct c
         end; congruence.
Qed.

(** With a baseline that is not 0 the classifier never raises: the
    filters do not, and the division is defined. *)
Lemma classify_heading_returns (text : str) (span : Span) (body_font_size : Z) :
  body_font_size <> 0 ->
  exists r, classify_heading db text span body_font_size = Ret r.
Proof.
  intros Hnz. unfold classify_heading.
  destruct (rejected_returns (strip db text)) as [b ->]. simpl.
  destruct b; [eauto|].
  destruct (negb _); [eauto|].
  rewrite truediv_nonzero by exact Hnz. simpl.
  repeat match goal with
         | |- context [if ?c then _ else _] => destruct c
         end; eauto.
Qed.

End ClassifierFacts.

(** The cascade of lines 75-80 is monotone in the size ratio. *)
Lemma level_of_monotone (r1 r2 : Q) (bold hf1 hf2 marker : bool) (lv1 lv2 : Level) :
  (r1 <= r2)%Q ->
  level_of r1 bold hf1 marker = Some lv1 ->
  level_of r2 bold hf2 marker = Some lv2 ->
  rank lv1 <= rank lv2.
Proof.
  intros Hratio. unfold level_of.
  pose proof (Qgtb_mono r1 r2 (9 # 5) Hratio) as M1.
  pose proof (Qgtb_mono r1 r2 (27 # 20) Hratio) as M2.
  pose proof (Qgtb_mono r1 r2 (23 # 20) Hratio) as M3.
  destruct (Qgtb r1 (9 # 5)); [rewrite (M1 eq_refl)|]; clear M1;
    (destruct (Qgtb r1 (27 # 20)); [rewrite (M2 eq_refl)|]); clear M2;
    (destruct (Qgtb r1 (23 # 20)); [rewrite (M3 eq_refl)|]); clear M3;
    repeat match goal with
           | |- context [Qgtb r2 ?c] => destruct (Qgtb r2 c)
           end;
    destruct bold, hf1, hf2, marker; simpl; intros E1 E2;
    try discriminate;
    injection E1 as <-; injection E2 as <-; simpl; lia.
Qed.

(** C7.  Of two lines of the same boldness and the same list-marker status
    that both get a level, the one with the larger size ratio gets a level
    of the same or of a higher rank. *)
Theorem level_monotone (db : UnicodeDB) (text1 text2 : str) (span1 span2 : Span)
    (body1 body2 : Z) (lv1 lv2 : Level) :
  classify_heading db text1 span1 body1 = Ret (Some lv1) ->
  classify_heading db text2 span2 body2 = Ret (Some lv2) ->
  is_bold db span1 = is_bold db span2 ->
  Regex.matches (list_marker_re db) (strip db text1)
  = Regex.matches (list_marker_re db) (strip db text2) ->
  (size_ratio span1 body1 <= size_ratio span2 body2)%Q ->
  rank lv1 <= rank lv2.
Proof.
  intros E1 E2 Hbold Hmarker Hratio.
  apply classify_heading_level in E1, E2.
  rewrite <- Hbold, <- Hmarker in E2.
  eapply level_of_monotone; eauto.
Qed.

(** C8.  The line "background and related work" is no heading, whatever
    its size, its font and the baseline. *)
Theorem background_and_related_work_rejected (db : UnicodeDB) (span : Span)
    (body_font_size : Z) :
  classify_heading db (u "background and related work") span body_font_size
  = Ret None.
Proof. reflexivity. Qed.

(** C10.  With a positive baseline [classify_heading] returns, and what it
    returns is H1, H2, H3 or no level. *)
Theorem classify_heading_total (db : UnicodeDB) (text : str) (span : Span)
    (body_font_size : Z) :
  0 < body_font_size ->
  exists r, classify_heading db text span body_font_size = Ret r /\
            (r = None \/ r = Some H1 \/ r = Some H2 \/ r = Some H3).
Proof.
  intros Hpos.
  destruct (classify_heading_returns db text span body_font_size) as [r Hr]; [lia|].
  exists r. split; [exact Hr|].
  destruct r as [[| |]|]; auto.
Qed.

(** ** Extraction *)

Section ExtractionFacts.

Variable db : UnicodeDB.
Variable fitz_open : str -> option Doc.

Lemma classify_heading_empty (span : Span) (body_font_size : Z) :
  classify_heading db [] span body_font_size = Ret None.
Proof. reflexivity. Qed.

(** What one line does to the outline: nothing, or one entry more, whose
    text is the text of the line, does not occur in the title and is not
    yet in the outline. *)
Lemma visit_line_Ret (title : str) (body_font_size page_num : Z) (line : Line)
    (o o' : list Entry.t) :
  visit_line db title body_font_size page_num line o = Ret o' ->
  o' = o \/
  exists lv,
    o' = o ++ [Entry.make lv (line_text db line) (page_num + 1)]
    /\ contains title (line_text db line) = false
    /\ ~ In (line_text db line) (map Entry.text o).
Proof.
  unfold visit_line.
  destruct (spans line) as [|first_span rest] eqn:Hspans.
  { intros H. injection H as <-. now left. }
  destruct (truthy title && contains title (line_text db line)) eqn:Hskip.
  { intros H. injection H as <-. now left. }
  destruct (classify_heading db (line_text db line) first_span body_font_size)
    as [[lv|]|e] eqn:Hc; simpl; try discriminate.
  2:{ intros H. injection H as <-. now left. }
  destruct (existsb _ o) eqn:Hdup; intros H; injection H as <-; [now left|].
  right. exists lv. split; [reflexivity|]. split.
  - apply andb_false_iff in Hskip as [Ht|Hct]; [|exact Hct].
    destruct title; [|discriminate].
    destruct (contains [] (line_text db line)) eqn:Hct; [|reflexivity].
    apply contains_nil in Hct. rewrite Hct, classify_heading_empty in Hc.
    discriminate.
  - intros Hin. apply in_map_iff in Hin as (d & Hd & Hin).
    assert (Hex : existsb (fun d => str_eqb (Entry.text d) (line_text db line)) o = true).
    { apply existsb_exists. exists d. split; [exact Hin|]. now apply str_eqb_eq. }
    congruence.
Qed.

(** A line whose text occurs in the title leaves the outline as it is. *)
Lemma visit_line_in_title (title : str) (body_font_size page_num : Z) (line : Line)
    (o : list Entry.t) :
  contains title (line_text db line) = true ->
  visit_line db title body_font_size page_num line o = Ret o.
Proof.
  intros Hct. unfold visit_line.
  destruct (spans line) as [|first_span rest]; [reflexivity|].
  rewrite Hct, andb_true_r.
  destruct title as [|c title]; simpl; [|reflexivity].
  apply contains_nil in Hct. now rewrite Hct, classify_heading_empty.
Qed.

(** A line whose text is in the outline already leaves it as it is,
    whatever its page and its level. *)
Lemma visit_line_duplicate (title : str) (body_font_size page_num : Z) (line : Line)
    (o : list Entry.t) :
  0 < body_font_size ->
  In (line_text db line) (map Entry.text o) ->
  visit_line db title body_font_size page_num line o = Ret o.
Proof.
  intros Hpos Hin. unfold visit_line.
  destruct (spans line) as [|first_span rest]; [reflexivity|].
  destruct (_ && _); [reflexivity|].
  destruct (classify_heading_returns db (line_text db line) first_span
              body_font_size) as [r ->]; [lia|]. simpl.
  destruct r as [lv|]; [|reflexivity].
  apply in_map_iff in Hin as (d & Hd & Hin).
  assert (Hex : existsb (fun d => str_eqb (Entry.text d) (line_text db line)) o = true).
  { apply existsb_exists. exists d. split; [exact Hin|]. now apply str_eqb_eq. }
  now rewrite Hex.
Qed.

Lemma visit_line_returns (title : str) (body_font_size page_num : Z) (line : Line)
    (o : list Entry.t) :
  0 < body_font_size ->
  exists o', visit_line db title body_font_size page_num line o = Ret o'.
Proof.
  intros Hpos. unfold visit_line.
  destruct (spans line) as [|first_span rest]; [eauto|].
  destruct (_ && _); [eauto|].
  destruct (classify_heading_returns db (line_text db line) first_span
              body_font_size) as [r ->]; [lia|]. simpl.
  destruct r; [|eauto]. destruct (existsb _ o); eauto.
Qed.

Lemma visit_line_ok (title : str) (body_font_size page_num : Z) (line : Line)
    (o o' : list Entry.t) :
  outline_ok title o ->
  visit_line db title body_font_size page_num line o = Ret o' ->
  outline_ok title o'.
Proof.
  intros [Ht Hnd] H.
  apply visit_line_Ret in H as [->|(lv & -> & Hct & Hnew)]; [now split|].
  split.
  - intros e He. apply in_app_or in He as [He|[<-|[]]]; [now apply Ht | exact Hct].
  - rewrite map_app. simpl.
    apply NoDup_rev in Hnd. rewrite <- (rev_involutive (_ ++ _)).
    apply NoDup_rev. rewrite rev_app_distr. simpl.
    constructor; [|exact Hnd]. now rewrite <- in_rev.
Qed.

Lemma visit_page_ok (title : str) (body_font_size : Z) (numbered : Z * Page)
    (o o' : list Entry.t) :
  outline_ok title o ->
  visit_page db title body_font_size numbered o = Ret o' ->
  outline_ok title o'.
Proof.
  unfold visit_page. intros Ho.
  apply for_each_invariant with (P := outline_ok title); [|exact Ho].
  intros block s s' _ Hs. unfold visit_block.
  apply for_each_invariant with (P := outline_ok title); [|exact Hs].
  intros line t t' _. apply visit_line_ok.
Qed.

Lemma visit_page_returns (title : str) (body_font_size : Z) (numbered : Z * Page)
    (o : list Entry.t) :
  0 < body_font_size ->
  exists o', visit_page db title body_font_size numbered o = Ret o'.
Proof.
  intros Hpos. unfold visit_page.
  apply for_each_returns. intros block s _. unfold visit_block.
  apply for_each_returns. intros line t _. now apply visit_line_returns.
Qed.

(** The two ways [extract_structure_from_pdf] returns a structure. *)
Lemma extract_structure_Some (pdf_path : str) (s : Structure) :
  extract_structure_from_pdf db fitz_open pdf_path = Ret (Some s) ->
  (fitz_open pdf_path = Some [] /\ s = {| title := []; outline := [] |})
  \/ exists first rest,
       fitz_open pdf_path = Some (first :: rest)
       /\ let doc := first :: rest in
          let body := analyze_font_styles doc in
          title s = choose_title db (find_title_block db body first) pdf_path
          /\ for_each (visit_page db (title s) body) (enumerate doc) []
             = Ret (outline s).
Proof.
  unfold extract_structure_from_pdf.
  destruct (fitz_open pdf_path) as [[|first rest]|]; try discriminate.
  - intros H. injection H as <-. now left.
  - destruct (for_each _ _ _) as [o|e] eqn:Hrun; simpl; [|discriminate].
    intros H. injection H as <-. right. exists first, rest.
    split; [reflexivity|]. simpl. split; [reflexivity | exact Hrun].
Qed.

Lemma extract_structure_ok (pdf_path : str) (s : Structure) :
  extract_structure_from_pdf db fitz_open pdf_path = Ret (Some s) ->
  outline_ok (title s) (outline s).
Proof.
  intros H. apply extract_structure_Some in H
    as [[_ ->]|(first & rest & _ & _ & Hrun)].
  - split; [intros e [] | constructor].
  - revert Hrun.
    apply for_each_invariant with (P := outline_ok (title s)).
    + intros numbered o o' _. apply visit_page_ok.
    + split; [intros e [] | constructor].
Qed.

(** Extraction never raises. *)
Lemma extract_structure_returns (pdf_path : str) :
  exists r, extract_structure_from_pdf db fitz_open pdf_path = Ret r.
Proof.
  unfold extract_structure_from_pdf.
  destruct (fitz_open pdf_path) as [[|first rest]|]; eauto.
  set (doc := first :: rest).
  destruct (for_each_returns
              (visit_page db
                 (choose_title db (find_title_block db (analyze_font_styles doc) first)
                    pdf_path)
                 (analyze_font_styles doc))
              (enumerate doc)) with (s := @nil Entry.t) as [o Ho].
  - intros numbered t _. apply visit_page_returns, analyze_font_styles_pos.
  - rewrite Ho. simpl. eauto.
Qed.

End ExtractionFacts.

Example report_extracted :
  extract_structure_from_pdf ascii_only Sample.files (u "/app/input/report.pdf")
  = Ret (Some Sample.report_structure).
Proof. reflexivity. Qed.

Example main_run :
  main ascii_only Sample.files
    [u "report.pdf"; u "broken.pdf"; u "notes.txt"; u "empty.pdf"; u "Scan.PDF";
     u "scan.pdf"]
  = Ret [ (u "/app/output/report.json", Sample.report_structure);
          (u "/app/output/empty.json", {| title := []; outline := [] |});
          (u "/app/output/scan.json", {| title := u "scan.pdf"; outline := [] |}) ].
Proof. reflexivity. Qed.

Example scenario_A :
  classify_heading ascii_only (u "1. Introduction")
    (Sample.span "1. Introduction" 24 "Helvetica-Bold") 12 = Ret (Some H1).
Proof. reflexivity. Qed.

Example scenario_C (span : Span) (body_font_size : Z) :
  classify_heading ascii_only (u "No internet access") span body_font_size = Ret None.
Proof. reflexivity. Qed.

Example division_by_a_zero_baseline :
  classify_heading ascii_only (u "Table of Contents")
    (Sample.span "Table of Contents" 12 "Arial Black") 0 = Raise ZeroDivisionError.
Proof. reflexivity. Qed.

Example splitext_examples :
  Path.splitext (u "/a/.bashrc") = (u "/a/.bashrc", [])
  /\ Path.splitext (u "a.tar.gz") = (u "a.tar", u ".gz")
  /\ Path.splitext (u "a.b/c") = (u "a.b/c", [])
  /\ Path.basename (u "/a/b/") = []
  /\ Path.basename (u "/app/input/report.pdf") = u "report.pdf".
Proof. repeat split; reflexivity. Qed.

(** ** The claims about extraction *)

(** C1 (as stated) fails: the title of a scan without text is the whole
    file name, extension included. *)
Lemma title_fallback_keeps_extension :
  find_title_block ascii_only (analyze_font_styles Sample.scan)
    {| blocks := [Sample.image_block] |} = None
  /\ exists s,
       extract_structure_from_pdf ascii_only Sample.files (u "/app/input/scan.pdf")
       = Ret (Some s)
       /\ title s = u "scan.pdf"
       /\ title s <> file_stem (u "/app/input/scan.pdf").
Proof.
  split; [reflexivity|].
  exists {| title := u "scan.pdf"; outline := [] |}.
  repeat split; [vm_compute; discriminate].
Qed.

(** C1 (as amended).  For a document of one page or more in which no block
    of the first page wins, or the title of the winning block has fewer
    than 5 characters, the returned title is the base name of the path of
    the document: its last component, extension included. *)
Theorem title_falls_back_to_basename (db : UnicodeDB) (fitz_open : str -> option Doc)
    (pdf_path : str) (first : Page) (rest : list Page) :
  fitz_open pdf_path = Some (first :: rest) ->
  match find_title_block db (analyze_font_styles (first :: rest)) first with
  | None => True
  | Some title_block => len (block_title db title_block) < 5
  end ->
  exists o,
    extract_structure_from_pdf db fitz_open pdf_path
    = Ret (Some {| title := Path.basename pdf_path; outline := o |}).
Proof.
  intros Hopen Hblock.
  destruct (extract_structure_returns db fitz_open pdf_path) as [r Hr].
  destruct r as [s|].
  - pose proof Hr as Hs.
    apply extract_structure_Some in Hs
      as [[Hopen' _]|(first' & rest' & Hopen' & Htitle & _)]; [congruence|].
    rewrite Hopen in Hopen'. injection Hopen' as <- <-.
    exists (outline s). rewrite Hr. do 2 f_equal.
    destruct s as [t o]. simpl in *. f_equal. rewrite Htitle.
    unfold choose_title.
    destruct (find_title_block db _ first) as [b|]; [|reflexivity].
    destruct (Z.ltb_spec (len (block_title db b)) 5) as [_|Hge]; [|lia].
    now rewrite orb_true_r.
  - unfold extract_structure_from_pdf in Hr. rewrite Hopen in Hr.
    destruct (for_each _ _ _); discriminate.
Qed.

Lemma title_falls_back_to_basename_witness :
  Sample.files (u "/app/input/scan.pdf") = Some Sample.scan
  /\ exists o,
       extract_structure_from_pdf ascii_only Sample.files (u "/app/input/scan.pdf")
       = Ret (Some {| title := Path.basename (u "/app/input/scan.pdf"); outline := o |}).
Proof.
  split; [reflexivity|].
  apply (title_falls_back_to_basename ascii_only Sample.files
           (u "/app/input/scan.pdf") {| blocks := [Sample.image_block] |} []).
  - reflexivity.
  - vm_compute. exact I.
Defined.

(** C2 (as stated) fails: for a file that does not open, extraction returns
    [None] and not the structure of an empty document. *)
Lemma unopened_document_not_degenerate :
  Sample.files (u "/app/input/broken.pdf") = None
  /\ extract_structure_from_pdf ascii_only Sample.files (u "/app/input/broken.pdf")
     <> Ret (Some {| title := []; outline := [] |}).
Proof. split; [reflexivity | vm_compute; discriminate]. Qed.

(** C2 (as amended).  For a document that cannot be opened, extraction
    raises nothing and returns [None], no structure at all; the loop of
    [main] writes no file for it and goes on with the rest of the
    listing. *)
Theorem unopened_document_skipped (db : UnicodeDB) (fitz_open : str -> option Doc)
    (pdf_path : str) :
  fitz_open pdf_path = None ->
  extract_structure_from_pdf db fitz_open pdf_path = Ret None
  /\ forall filename listing,
       Path.join input_dir filename = pdf_path ->
       main db fitz_open (filename :: listing) = main db fitz_open listing.
Proof.
  intros Hopen.
  assert (Hnone : extract_structure_from_pdf db fitz_open pdf_path = Ret None).
  { unfold extract_structure_from_pdf. now rewrite Hopen. }
  split; [exact Hnone|].
  intros filename listing Hpath. unfold main. simpl. unfold main_step.
  destruct (endswith _ _); [|reflexivity].
  now rewrite Hpath, Hnone.
Qed.

Lemma unopened_document_skipped_witness :
  Sample.files (u "/app/input/broken.pdf") = None
  /\ extract_structure_from_pdf ascii_only Sample.files (u "/app/input/broken.pdf")
     = Ret None
  /\ main ascii_only Sample.files [u "broken.pdf"; u "scan.pdf"]
     = main ascii_only Sample.files [u "scan.pdf"].
Proof.
  split; [reflexivity|].
  destruct (unopened_document_skipped ascii_only Sample.files
              (u "/app/input/broken.pdf") eq_refl) as [Hnone Hmain].
  split; [exact Hnone|].
  apply Hmain. reflexivity.
Defined.

(** C5.  A line whose text occurs in the title (in particular, a line whose
    text is the title) leaves the outline as it is, and no entry of the
    outline has a text that occurs in the title of the structure. *)
Theorem title_lines_not_in_outline (db : UnicodeDB) (fitz_open : str -> option Doc)
    (pdf_path : str) (s : Structure) :
  extract_structure_from_pdf db fitz_open pdf_path = Ret (Some s) ->
  (forall body_font_size page_num line o,
     contains (title s) (line_text db line) = true ->
     visit_line db (title s) body_font_size page_num line o = Ret o)
  /\ (forall e, In e (outline s) ->
        contains (title s) (Entry.text e) = false /\ Entry.text e <> title s).
Proof.
  intros H. split.
  - intros body_font_size page_num line o. apply visit_line_in_title.
  - intros e He.
    destruct (extract_structure_ok db fitz_open pdf_path s H) as [Ht _].
    specialize (Ht e He). split; [exact Ht|].
    intros Heq. rewrite Heq, contains_refl in Ht. discriminate.
Qed.

Lemma title_lines_not_in_outline_witness :
  extract_structure_from_pdf ascii_only Sample.files (u "/app/input/report.pdf")
  = Ret (Some Sample.report_structure)
  /\ forall e, In e (outline Sample.report_structure) ->
       contains (title Sample.report_structure) (Entry.text e) = false
       /\ Entry.text e <> title Sample.report_structure.
Proof.
  split; [reflexivity|].
  apply (title_lines_not_in_outline ascii_only Sample.files (u "/app/input/report.pdf")).
  reflexivity.
Defined.

(** C6.  No two entries of an outline have the same text: a line whose text
    is in the outline under construction leaves it as it is, whatever its
    page and its level, so that the first occurrence stays. *)
Theorem outline_texts_unique (db : UnicodeDB) (fitz_open : str -> option Doc)
    (pdf_path : str) (s : Structure) :
  extract_structure_from_pdf db fitz_open pdf_path = Ret (Some s) ->
  NoDup (map Entry.text (outline s))
  /\ (forall body_font_size page_num line o,
        0 < body_font_size ->
        In (line_text db line) (map Entry.text o) ->
        visit_line db (title s) body_font_size page_num line o = Ret o).
Proof.
  intros H. split.
  - now destruct (extract_structure_ok db fitz_open pdf_path s H).
  - intros body_font_size page_num line o. apply visit_line_duplicate.
Qed.

Lemma outline_texts_unique_witness :
  extract_structure_from_pdf ascii_only Sample.files (u "/app/input/report.pdf")
  = Ret (Some Sample.report_structure)
  /\ NoDup (map Entry.text (outline Sample.report_structure)).
Proof.
  split; [reflexivity|].
  apply (outline_texts_unique ascii_only Sample.files (u "/app/input/report.pdf")).
  reflexivity.
Defined.

(** C9.  A document of no page gives the structure of an empty title and
    an empty outline, and no exception. *)
Theorem zero_pages_degenerate (db : UnicodeDB) (fitz_open : str -> option Doc)
    (pdf_path : str) :
  fitz_open pdf_path = Some [] ->
  extract_structure_from_pdf db fitz_open pdf_path
  = Ret (Some {| title := []; outline := [] |}).
Proof.
  intros Hopen. unfold extract_structure_from_pdf. now rewrite Hopen.
Qed.

Lemma zero_pages_degenerate_witness :
  Sample.files (u "/app/input/empty.pdf") = Some []
  /\ extract_structure_from_pdf ascii_only Sample.files (u "/app/input/empty.pdf")
     = Ret (Some {| title := []; outline := [] |}).
Proof.
  split; [reflexivity|].
  apply (zero_pages_degenerate ascii_only Sample.files (u "/app/input/empty.pdf")).
  reflexivity.
Defined.

(** ** The claims about the baseline and the classifier, on samples *)

(** C3 (as stated) fails: two sizes with the same count, and the baseline
    is the one met first. *)
Lemma baseline_depends_on_order :
  Permutation (doc_spans Sample.tie) (doc_spans Sample.tie_swapped)
  /\ analyze_font_styles Sample.tie = 10
  /\ analyze_font_styles Sample.tie_swapped = 12
  /\ analyze_font_styles Sample.tie <> analyze_font_styles Sample.tie_swapped.
Proof.
  split; [apply perm_swap | repeat split; vm_compute; discriminate].
Qed.

Lemma baseline_permutation_invariant_witness :
  Permutation (doc_spans Sample.no_tie) (doc_spans Sample.no_tie_swapped)
  /\ analyze_font_styles Sample.no_tie_swapped = analyze_font_styles Sample.no_tie.
Proof.
  assert (Hperm : Permutation (doc_spans Sample.no_tie) (doc_spans Sample.no_tie_swapped))
    by apply perm_swap.
  split; [exact Hperm|].
  apply (baseline_permutation_invariant Sample.no_tie Sample.no_tie_swapped Hperm).
  intros k Hin Hne. vm_compute in Hin.
  destruct Hin as [<-|[<-|[]]].
  - vm_compute in Hne. now destruct Hne.
  - vm_compute. reflexivity.
Defined.

(** C4 (as stated) fails: a span of size 7.3 rounds to 7, which does not
    exceed 7, and is counted all the same; it even becomes the baseline of
    a document that has nothing else. *)
Lemma small_print_is_counted :
  py_round (size Sample.small_print) <= 7
  /\ count_span [] Sample.small_print = [(7, 3)]
  /\ analyze_font_styles
       [ {| blocks := [Sample.text_block [Sample.line [Sample.small_print]]] |} ] = 7.
Proof. repeat split. vm_compute. discriminate. Qed.

Lemma count_span_above_7_witness :
  (7 < size Sample.small_print)%Q
  /\ counter_get (count_span [] Sample.small_print) 7 = 0 + 3.
Proof.
  split; [reflexivity|].
  apply (proj1 (count_span_above_7 [] Sample.small_print) eq_refl 7).
Defined.

Lemma level_monotone_witness :
  (size_ratio (Sample.span "2. Methods" 18 "Arial-Bold") 12
   <= size_ratio (Sample.span "1. Introduction" 24 "Arial-Bold") 12)%Q
  /\ rank H2 <= rank H1.
Proof.
  assert (Hratio : (size_ratio (Sample.span "2. Methods" 18 "Arial-Bold") 12
                    <= size_ratio (Sample.span "1. Introduction" 24 "Arial-Bold") 12)%Q).
  { vm_compute. discriminate. }
  split; [exact Hratio|].
  apply (level_monotone ascii_only (u "2. Methods") (u "1. Introduction")
           (Sample.span "2. Methods" 18 "Arial-Bold")
           (Sample.span "1. Introduction" 24 "Arial-Bold") 12 12 H2 H1);
    try reflexivity.
  exact Hratio.
Defined.

Lemma classify_heading_total_witness :
  0 < 12
  /\ exists r,
       classify_heading ascii_only (u "1. Introduction")
         (Sample.span "1. Introduction" 24 "Arial-Bold") 12 = Ret r
       /\ (r = None \/ r = Some H1 \/ r = Some H2 \/ r = Some H3).
Proof.
  split; [reflexivity|].
  apply (classify_heading_total ascii_only (u "1. Introduction")
           (Sample.span "1. Introduction" 24 "Arial-Bold") 12).
  reflexivity.
Defined.

(** * Further properties of the code *)

(** ** [analyze_font_styles] *)

Lemma weight_nonneg (l : list Span) (k : Z) : 0 <= weight l k.
Proof.
  induction l as [|s l IH]; simpl; [lia|].
  pose proof (len_nonneg (text s)).
  destruct (_ && _); lia.
Qed.

Lemma weight_not_counted (l : list Span) (k : Z) :
  ~ counted l k -> weight l k = 0.
Proof.
  induction l as [|s l IH]; simpl; intros Hn; [reflexivity|].
  rewrite IH.
  - destruct (Qgtb (size s) 7) eqn:H7; simpl; [|reflexivity].
    destruct (Z.eqb_spec (py_round (size s)) k) as [Hk|Hk]; [|reflexivity].
    exfalso. apply Hn. exists s. simpl. auto.
  - intros (s' & Hin & H). apply Hn. exists s'. simpl. auto.
Qed.

Lemma font_sizes_empty (doc : Doc) :
  font_sizes doc = [] <-> forall s, In s (doc_spans doc) -> (size s <= 7)%Q.
Proof.
  split.
  - intros Hd s Hs. apply Qgtb_false.
    destruct (Qgtb (size s) 7) eqn:H7; [|reflexivity].
    assert (Hk : In (py_round (size s)) (keys (font_sizes doc))).
    { apply font_sizes_key. exists s. auto. }
    rewrite Hd in Hk. destruct Hk.
  - intros Hall. destruct (font_sizes doc) as [|[k v] d] eqn:Hd; [reflexivity|].
    assert (Hk : In k (keys (font_sizes doc))) by (rewrite Hd; now left).
    apply font_sizes_key in Hk as (s & Hs & H7 & _).
    apply Hall, Qgtb_false in Hs. congruence.
Qed.

(** X1.  A document in which no span has a raw size above 7 gets the
    default baseline, 12. *)
Theorem baseline_default (doc : Doc) :
  (forall s, In s (doc_spans doc) -> (size s <= 7)%Q) ->
  analyze_font_styles doc = 12.
Proof.
  intros Hall. apply analyze_font_styles_default. now apply font_sizes_empty.
Qed.

Lemma baseline_default_witness :
  (forall s, In s (doc_spans MoreSamples.fine_print) -> (size s <= 7)%Q)
  /\ analyze_font_styles MoreSamples.fine_print = 12.
Proof.
  assert (Hall : forall s, In s (doc_spans MoreSamples.fine_print) -> (size s <= 7)%Q).
  { intros s Hs. simpl in Hs. destruct Hs as [<-|[<-|[]]]; vm_compute; discriminate. }
  split; [exact Hall|].
  apply (baseline_default MoreSamples.fine_print Hall).
Defined.

(** X2.  The baseline is 7 at least, and it is the default 12 or the
    rounded size of a span of the document whose raw size is above 7. *)
Theorem baseline_origin (doc : Doc) :
  7 <= analyze_font_styles doc
  /\ (analyze_font_styles doc = 12
      \/ exists s, In s (doc_spans doc) /\ (7 < size s)%Q
                   /\ py_round (size s) = analyze_font_styles doc).
Proof.
  destruct (font_sizes doc) as [|first rest] eqn:Hd.
  - rewrite analyze_font_styles_default by exact Hd. split; [lia | now left].
  - destruct (analyze_font_styles_max doc) as [Hin _]; [congruence|].
    apply font_sizes_key in Hin as (s & Hs & H7 & Hr).
    apply Qgtb_spec in H7. split.
    + rewrite <- Hr. now apply py_round_above_7.
    + right. exists s. auto.
Qed.

(** X3.  No rounded size has a greater accumulated character count than
    the baseline. *)
Theorem baseline_has_greatest_weight (doc : Doc) (k : Z) :
  weight (doc_spans doc) k <= weight (doc_spans doc) (analyze_font_styles doc).
Proof.
  destruct (in_dec Z.eq_dec k (keys (font_sizes doc))) as [Hk|Hk].
  - destruct (analyze_font_styles_max doc) as [_ Hmax].
    + intros Hd. rewrite Hd in Hk. destruct Hk.
    + rewrite <- !font_sizes_get. now apply Hmax.
  - rewrite weight_not_counted.
    + apply weight_nonneg.
    + intros Hc. apply Hk. now apply font_sizes_key.
Qed.

(** A key that is counted again keeps its place; a new key goes last. *)
Lemma keys_add_extends (d : counter) (k n : Z) :
  exists ext, keys (counter_add k n d) = keys d ++ ext.
Proof.
  induction d as [|[k0 v] d [ext IH]]; simpl.
  - now exists [k].
  - destruct (k0 =? k); simpl.
    + exists []. now rewrite app_nil_r.
    + exists ext. now rewrite IH.
Qed.

Lemma keys_count_spans_extends (l : list Span) (d : counter) :
  exists ext, keys (fold_left count_span l d) = keys d ++ ext.
Proof.
  revert d; induction l as [|s l IH]; intros d; simpl.
  - exists []. now rewrite app_nil_r.
  - destruct (IH (count_span d s)) as [ext1 ->]. unfold count_span.
    destruct (Qgtb (size s) 7).
    + destruct (keys_add_extends d (py_round (size s)) (len (text s))) as [ext2 ->].
      exists (ext2 ++ ext1). now rewrite app_assoc.
    + now exists ext1.
Qed.

(** [max] keeps the first of the keys of the greatest count: the counts
    before it are smaller, the counts after it are not greater. *)
Lemma max_from_first (d : counter) (best : Z * Z) :
  exists v d1 d2,
    best :: d = d1 ++ (max_from best d, v) :: d2
    /\ (forall k' v', In (k', v') d1 -> v' < v)
    /\ (forall k' v', In (k', v') d2 -> v' <= v).
Proof.
  revert best; induction d as [|[k v0] d IH]; intros [bk bv]; simpl.
  - exists bv, [], []. repeat split; intros k' v' [].
  - destruct (Z.ltb_spec bv v0) as [Hlt|Hge].
    + destruct (IH (k, v0)) as (v & d1 & d2 & Heq & Hbefore & Hafter).
      exists v, ((bk, bv) :: d1), d2. split; [simpl; now rewrite Heq|].
      split; [|exact Hafter].
      intros k' v' [H|H]; [|now apply (Hbefore k')].
      injection H as _ <-.
      destruct d1 as [|[k1 v1] d1].
      * simpl in Heq. injection Heq as _ <- _. exact Hlt.
      * simpl in Heq. injection Heq as <- <- _.
        specialize (Hbefore k v0 (or_introl eq_refl)). lia.
    + destruct (IH (bk, bv)) as (v & d1 & d2 & Heq & Hbefore & Hafter).
      destruct d1 as [|[k1 v1] d1]; simpl in Heq.
      * injection Heq as Hk <- <-.
        exists bv, [], ((k, v0) :: d). split; [simpl; now rewrite <- Hk|].
        split; [intros k' v' []|].
        intros k' v' [H|H]; [injection H as _ <-; lia | now apply (Hafter k')].
      * injection Heq as <- <- Hd.
        exists v, ((bk, bv) :: (k, v0) :: d1), d2.
        split; [simpl; do 2 f_equal; exact Hd|]. split; [|exact Hafter].
        pose proof (Hbefore bk bv (or_introl eq_refl)) as Hbv.
        intros k' v' [H|[H|H]].
        -- injection H as _ <-. exact Hbv.
        -- injection H as _ <-. lia.
        -- apply (Hbefore k'). now right.
Qed.

Lemma app_prefix_before {A : Type} (l1 l2 m1 m2 : list A) (b : A) :
  l1 ++ l2 = m1 ++ b :: m2 -> ~ In b l1 -> exists r, m1 = l1 ++ r.
Proof.
  revert m1; induction l1 as [|x l1 IH]; intros m1 Heq Hb.
  - now exists m1.
  - destruct m1 as [|y m1]; simpl in Heq; injection Heq as Hx Heq.
    + subst. exfalso. apply Hb. now left.
    + subst y. destruct (IH m1 Heq) as [r ->].
      * intros H. apply Hb. now right.
      * now exists r.
Qed.

(** X4.  A tie for the greatest count goes to the size met first: a size
    that is counted before any span of the baseline size is, has a
    strictly smaller accumulated character count than the baseline. *)
Theorem baseline_first_among_ties (doc : Doc) (pre post : list Span) (s : Span) :
  doc_spans doc = pre ++ s :: post ->
  (7 < size s)%Q ->
  (forall s', In s' (pre ++ [s]) -> (7 < size s')%Q ->
     py_round (size s') <> analyze_font_styles doc) ->
  weight (doc_spans doc) (py_round (size s))
  < weight (doc_spans doc) (analyze_font_styles doc).
Proof.
  intros Hspans H7 Hearlier.
  set (b := analyze_font_styles doc) in *.
  set (k := py_round (size s)).
  set (d0 := fold_left count_span (pre ++ [s]) []).
  assert (Hfold : font_sizes doc = fold_left count_span post d0).
  { unfold font_sizes, d0. rewrite Hspans.
    change (s :: post) with ([s] ++ post). now rewrite app_assoc, fold_left_app. }
  assert (Hk0 : In k (keys d0)).
  { apply keys_count_spans. right. exists s. split; [apply in_or_app; right; now left|].
    split; [now apply Qgtb_spec | reflexivity]. }
  assert (Hb0 : ~ In b (keys d0)).
  { intros Hin. apply keys_count_spans in Hin as [[]|(s' & Hs' & H7' & Hr)].
    apply (Hearlier s' Hs'); [now apply Qgtb_spec | exact Hr]. }
  destruct (keys_count_spans_extends post d0) as [ext Hext].
  rewrite <- Hfold in Hext.
  pose proof (font_sizes_NoDup doc) as Hnd.
  rewrite <- !font_sizes_get. fold b k.
  unfold b, analyze_font_styles in *.
  destruct (font_sizes doc) as [|first rest] eqn:Hd.
  { destruct (keys d0); [destruct Hk0 | discriminate]. }
  destruct (max_from_first rest first) as (v & d1 & d2 & Heq & Hbefore & _).
  rewrite Heq in Hext, Hnd |- *.
  unfold keys in Hext. rewrite map_app in Hext. simpl in Hext.
  symmetry in Hext.
  destruct (app_prefix_before _ _ _ _ _ Hext Hb0) as [r Hr].
  assert (Hk1 : In k (map fst d1)).
  { rewrite Hr. apply in_or_app. now left. }
  apply in_map_iff in Hk1 as ([k' v'] & Hfst & Hin). simpl in Hfst. subst k'.
  rewrite (counter_get_In _ k v' Hnd) by (apply in_or_app; now left).
  rewrite (counter_get_In _ _ v Hnd) by (apply in_or_app; right; now left).
  now apply (Hbefore k).
Qed.

Lemma baseline_first_among_ties_witness :
  (7 < size (Sample.span "cd" 12 "Arial"))%Q
  /\ weight (doc_spans Sample.no_tie_swapped) 12
     < weight (doc_spans Sample.no_tie_swapped)
         (analyze_font_styles Sample.no_tie_swapped).
Proof.
  split; [reflexivity|].
  apply (baseline_first_among_ties Sample.no_tie_swapped []
           [Sample.span "abc" 10 "Arial"] (Sample.span "cd" 12 "Arial")).
  - reflexivity.
  - reflexivity.
  - intros s' Hs' _. simpl in Hs'. destruct Hs' as [<-|[]].
    vm_compute. discriminate.
Defined.

(** ** Title detection *)

Section TitleFacts.

Variable db : UnicodeDB.
Variable body_font_size : Z.



End TitleFacts.





(** ** [classify_heading] *)

Section StripFacts.

Variable db : UnicodeDB.

Lemma lstrip_idempotent (s : str) : lstrip db (lstrip db s) = lstrip db s.
Proof.
  induction s as [|c s IH]; simpl; [reflexivity|].
  destruct (ch_isspace db c) eqn:Hc; [exact IH|].
  simpl. now rewrite Hc.
Qed.

Lemma lstrip_head (s : str) :
  lstrip db s = [] \/ exists c r, lstrip db s = c :: r /\ ch_isspace db c = false.
Proof.
  induction s as [|c s IH]; simpl; [now left|].
  destruct (ch_isspace db c) eqn:Hc; [exact IH|].
  right. now exists c, s.
Qed.

Lemma lstrip_snoc (l : str) (c : N) :
  ch_isspace db c = false -> lstrip db (l ++ [c]) = lstrip db l ++ [c].
Proof.
  intros Hc. induction l as [|x l IH]; simpl.
  - now rewrite Hc.
  - destruct (ch_isspace db x); [exact IH | reflexivity].
Qed.

(** A stripped string is empty or begins and ends with a code point that is
    no space. *)
Lemma strip_shape (s : str) :
  strip db s = [] \/
  exists c r, ch_isspace db c = false /\ lstrip db s = c :: r
              /\ strip db s = c :: rev (lstrip db (rev r)).
Proof.
  unfold strip, rstrip.
  destruct (lstrip_head s) as [->|(c & r & -> & Hc)]; [now left|].
  right. exists c, r. split; [exact Hc|]. split; [reflexivity|].
  simpl. rewrite (lstrip_snoc _ _ Hc), rev_app_distr. reflexivity.
Qed.

Lemma strip_idempotent (s : str) : strip db (strip db s) = strip db s.
Proof.
  destruct (strip_shape s) as [->|(c & r & Hc & _ & ->)]; [reflexivity|].
  unfold strip, rstrip. simpl. rewrite Hc. simpl.
  rewrite (lstrip_snoc _ _ Hc), rev_app_distr. simpl.
  now rewrite rev_involutive, lstrip_idempotent.
Qed.

(** What a text that passes the six filters looks like. *)
Lemma rejected_false (t : str) :
  rejected db t = Ret false ->
  3 <= len t
  /\ len (split db t) <= 8
  /\ (exists c r, t = c :: r /\ (ch_isupper db c = true \/ ch_isdigit db c = true))
  /\ endswith_any t [u ","; u ";"; [8212%N]; u "."; [8211%N]; u ":"] = false
  /\ endswith t (u ")") = false
  /\ startswith_any t [u "[["; u "("; u "http"] = false
  /\ contains t (u ".git") = false
  /\ (islower db t = true -> len (split db t) <= 4)
  /\ (2 <= len (split db t) <= 3 -> islower db (join (u " ") (tl (split db t))) = false).
Proof.
  unfold rejected.
  destruct (Z.ltb_spec (len t) 3) as [|H3]; [discriminate|].
  destruct (endswith_any t _) eqn:Hend; [discriminate|].
  destruct (islower db t && (4 <? len (split db t))) eqn:Hprose; [discriminate|].
  cbn [orb].
  destruct (startswith_any t _) eqn:Hstart; [discriminate|].
  destruct (endswith t (u ")")) eqn:Hparen; [discriminate|].
  destruct (contains t (u ".git")) eqn:Hgit; [discriminate|].
  cbn [orb].
  destruct t as [|c r]; [discriminate|]. cbn [index0 bind].
  destruct (ch_isupper db c || ch_isdigit db c) eqn:Hfirst; [|discriminate].
  cbn [negb].
  destruct (Z.ltb_spec 8 (len (split db (c :: r)))) as [|H8]; [discriminate|].
  destruct (((len (split db (c :: r)) =? 2) || (len (split db (c :: r)) =? 3))
            && islower db (join (u " ") (tl (split db (c :: r))))) eqn:Hlist;
    [discriminate|].
  intros _.
  split; [exact H3|]. split; [exact H8|].
  split; [exists c, r; split; [reflexivity | now apply orb_true_iff]|].
  do 4 (split; [reflexivity|]).
  split.
  - intros Hlow. rewrite Hlow in Hprose. simpl in Hprose.
    now apply Z.ltb_ge in Hprose.
  - intros Hw. apply andb_false_iff in Hlist as [Hn|Hl]; [|exact Hl].
    apply orb_false_iff in Hn as [H2 H3']. apply Z.eqb_neq in H2, H3'. lia.
Qed.

End StripFacts.

(** X7.  The text of a line that gets a level, once stripped, has 3
    characters at least and 8 words at most, begins with an upper-case
    letter or a digit, does not end with one of , ; . : ) or a dash, does
    not begin with [[, ( or http, does not contain .git, is not lower-case
    prose of more than 4 words, and is not a line of 2 or 3 words whose
    words after the first are lower-case. *)
Theorem heading_text_shape (db : UnicodeDB) (text : str) (span : Span)
    (body_font_size : Z) (lv : Level) :
  classify_heading db text span body_font_size = Ret (Some lv) ->
  let t := strip db text in
  3 <= len t
  /\ len (split db t) <= 8
  /\ (exists c r, t = c :: r /\ (ch_isupper db c = true \/ ch_isdigit db c = true))
  /\ endswith_any t [u ","; u ";"; [8212%N]; u "."; [8211%N]; u ":"] = false
  /\ endswith t (u ")") = false
  /\ startswith_any t [u "[["; u "("; u "http"] = false
  /\ contains t (u ".git") = false
  /\ (islower db t = true -> len (split db t) <= 4)
  /\ (2 <= len (split db t) <= 3 -> islower db (join (u " ") (tl (split db t))) = false).
Proof.
  intros Hc t. apply rejected_false. subst t.
  unfold classify_heading in Hc.
  destruct (rejected db (strip db text)) as [[|]|e]; simpl in Hc;
    [discriminate | reflexivity | discriminate].
Qed.

Lemma heading_text_shape_witness :
  classify_heading ascii_only (u "  1. Introduction ")
    (Sample.span "1. Introduction" 24 "Arial-Bold") 12 = Ret (Some H1)
  /\ 3 <= len (strip ascii_only (u "  1. Introduction "))
  /\ len (split ascii_only (strip ascii_only (u "  1. Introduction "))) <= 8.
Proof.
  split; [reflexivity|].
  destruct (heading_text_shape ascii_only (u "  1. Introduction ")
              (Sample.span "1. Introduction" 24 "Arial-Bold") 12 H1 eq_refl)
    as (Hlen & Hwords & _).
  split; [exact Hlen | exact Hwords].
Defined.

(** X8.  Leading and trailing spaces of the text do not matter to the
    classifier. *)
Theorem classify_heading_strip (db : UnicodeDB) (text : str) (span : Span)
    (body_font_size : Z) :
  classify_heading db (strip db text) span body_font_size
  = classify_heading db text span body_font_size.
Proof.
  unfold classify_heading. now rewrite strip_idempotent.
Qed.

(** X9.  A line that passes the filters and is larger than the baseline, or
    bold, always gets a level: the classifier gives no level only to a
    line that a filter rejects or that is neither larger than the baseline
    nor bold.  Whether the line begins with a list marker never decides. *)
Theorem no_level_only_if_rejected_or_plain (db : UnicodeDB) (text : str)
    (span : Span) (body_font_size : Z) :
  classify_heading db text span body_font_size = Ret None ->
  rejected db (strip db text) = Ret true
  \/ (py_round (size span) <= body_font_size /\ is_bold db span = false).
Proof.
  unfold classify_heading.
  destruct (rejected db (strip db text)) as [[|]|e]; simpl;
    [now left | | discriminate].
  destruct (Z.ltb_spec body_font_size (py_round (size span))) as [Hlt|Hge];
    destruct (is_bold db span); simpl.
  - destruct (truediv _ _); simpl; [|discriminate].
    repeat match goal with
           | |- context [if ?c then _ else _] => destruct c
           end; discriminate.
  - destruct (truediv _ _); simpl; [|discriminate].
    repeat match goal with
           | |- context [if ?c then _ else _] => destruct c
           end; discriminate.
  - destruct (truediv _ _); simpl; [|discriminate].
    repeat match goal with
           | |- context [if ?c then _ else _] => destruct c
           end; discriminate.
  - intros _. right. split; [exact Hge | reflexivity].
Qed.

Lemma no_level_only_if_rejected_or_plain_witness :
  classify_heading ascii_only (u "Table of Contents")
    (Sample.span "Table of Contents" 12 "Arial") 12 = Ret None
  /\ (rejected ascii_only (strip ascii_only (u "Table of Contents")) = Ret true
      \/ (py_round (size (Sample.span "Table of Contents" 12 "Arial")) <= 12
          /\ is_bold ascii_only (Sample.span "Table of Contents" 12 "Arial") = false)).
Proof.
  split; [reflexivity|].
  apply (no_level_only_if_rejected_or_plain ascii_only (u "Table of Contents")
           (Sample.span "Table of Contents" 12 "Arial") 12).
  reflexivity.
Defined.

(** What [classify_heading] has checked when it returns a level. *)
Lemma classify_heading_Some (db : UnicodeDB) (text : str) (span : Span)
    (body_font_size : Z) (lv : Level) :
  classify_heading db text span body_font_size = Ret (Some lv) ->
  (body_font_size <? py_round (size span)) || is_bold db span = true
  /\ level_of (size_ratio span body_font_size) (is_bold db span)
       (body_font_size <? py_round (size span))
       (Regex.matches (list_marker_re db) (strip db text)) = Some lv.
Proof.
  intros Hc. split; [|now apply classify_heading_level].
  unfold classify_heading in Hc.
  destruct (rejected db (strip db text)) as [[|]|e]; simpl in Hc; try discriminate.
  destruct ((body_font_size <? py_round (size span)) || is_bold db span);
    [reflexivity | discriminate].
Qed.

Lemma size_ratio_le_1 (span : Span) (body_font_size : Z) :
  0 < body_font_size -> py_round (size span) <= body_font_size ->
  (size_ratio span body_font_size <= 1)%Q.
Proof.
  intros Hpos Hle. unfold size_ratio.
  apply Qle_shift_div_r.
  - change 0%Q with (inject_Z 0). now rewrite <- Zlt_Qlt.
  - rewrite Qmult_1_l. now rewrite <- Zle_Qle.
Qed.

(** X10.  With a positive baseline, a line that is not bold gets a level
    only when it is larger than the baseline, and never H1; a line that is
    not larger than the baseline gets a level only when it is bold, and
    then H3. *)
Theorem level_needs_size_or_bold (db : UnicodeDB) (text : str) (span : Span)
    (body_font_size : Z) (lv : Level) :
  classify_heading db text span body_font_size = Ret (Some lv) ->
  0 < body_font_size ->
  (is_bold db span = false -> body_font_size < py_round (size span) /\ lv <> H1)
  /\ (py_round (size span) <= body_font_size -> is_bold db span = true /\ lv = H3).
Proof.
  intros Hc Hpos. apply classify_heading_Some in Hc as [Hfont Hlv]. split.
  - intros Hbold. rewrite Hbold in Hfont, Hlv. rewrite orb_false_r in Hfont.
    split; [now apply Z.ltb_lt|].
    unfold level_of in Hlv. rewrite andb_false_r in Hlv.
    intros ->.
    repeat match type of Hlv with
           | context [if ?c then _ else _] => destruct c
           end; discriminate.
  - intros Hle.
    assert (Hnot : (body_font_size <? py_round (size span)) = false)
      by (apply Z.ltb_ge; exact Hle).
    rewrite Hnot in Hfont, Hlv. simpl in Hfont. rewrite Hfont in Hlv.
    split; [exact Hfont|].
    pose proof (size_ratio_le_1 span body_font_size Hpos Hle) as Hr.
    assert (Hq : forall c : Q, (1 < c)%Q -> Qgtb (size_ratio span body_font_size) c = false).
    { intros c Hc. apply Qgtb_false. apply Qlt_le_weak.
      eapply Qle_lt_trans; eauto. }
    unfold level_of in Hlv.
    rewrite (Hq (9 # 5)), (Hq (27 # 20)), (Hq (23 # 20)) in Hlv by reflexivity.
    simpl in Hlv. congruence.
Qed.

Lemma level_needs_size_or_bold_witness :
  classify_heading ascii_only (u "Table of Contents")
    (Sample.span "Table of Contents" 12 "Arial Black") 12 = Ret (Some H3)
  /\ 0 < 12
  /\ is_bold ascii_only (Sample.span "Table of Contents" 12 "Arial Black") = true.
Proof.
  split; [reflexivity|]. split; [reflexivity|].
  apply (proj2 (level_needs_size_or_bold ascii_only (u "Table of Contents")
                  (Sample.span "Table of Contents" 12 "Arial Black") 12 H3
                  eq_refl eq_refl)).
  discriminate.
Defined.

(** ** [extract_structure_from_pdf] *)

Lemma classify_heading_passes (db : UnicodeDB) (text : str) (span : Span)
    (body_font_size : Z) (lv : Level) :
  classify_heading db text span body_font_size = Ret (Some lv) ->
  rejected db (strip db text) = Ret false.
Proof.
  unfold classify_heading.
  destruct (rejected db (strip db text)) as [[|]|e]; simpl;
    [discriminate | reflexivity | discriminate].
Qed.

Lemma StronglySorted_snoc {A : Type} (R : A -> A -> Prop) (l : list A) (x : A) :
  StronglySorted R l -> Forall (fun y => R y x) l -> StronglySorted R (l ++ [x]).
Proof.
  induction 1 as [|y l Hl IH Hy]; simpl; intros Hx.
  - constructor; constructor.
  - inversion Hx as [|? ? Hyx Hlx]; subst. constructor; [now apply IH|].
    apply Forall_app. split; [exact Hy | now constructor].
Qed.

(** The pages of [enumerate] carry their index. *)
Lemma combine_seq_In (pages : list Page) (a : nat) (i : Z) (p : Page) :
  In (i, p) (combine (map Z.of_nat (seq a (List.length pages))) pages) ->
  exists j, i = Z.of_nat (a + j) /\ nth_error pages j = Some p.
Proof.
  revert a; induction pages as [|q pages IH]; intros a; simpl; [intros []|].
  intros [H|H].
  - injection H as <- <-. exists 0%nat. split; [f_equal; lia | reflexivity].
  - destruct (IH (S a) H) as (j & -> & Hj). exists (S j).
    split; [f_equal; lia | exact Hj].
Qed.

Lemma enumerate_In (doc : Doc) (i : Z) (p : Page) :
  In (i, p) (enumerate doc) ->
  0 <= i < len doc /\ nth_error doc (Z.to_nat i) = Some p.
Proof.
  intros H. apply combine_seq_In in H as (j & -> & Hj). simpl.
  rewrite Nat2Z.id. split; [|exact Hj].
  assert (j < List.length doc)%nat by (apply nth_error_Some; congruence).
  unfold len. lia.
Qed.

(** A loop over the numbered pages, with an invariant that knows the
    number of the page. *)
Lemma for_each_numbered {St : Type} (P : Z -> St -> Prop)
    (body : Z * Page -> St -> outcome St) (pages : list Page) :
  (forall i p s s', P i s -> body (i, p) s = Ret s' -> P (i + 1) s') ->
  forall (a : nat) (s s' : St),
    P (Z.of_nat a) s ->
    for_each body (combine (map Z.of_nat (seq a (List.length pages))) pages) s = Ret s' ->
    P (Z.of_nat (a + List.length pages)) s'.
Proof.
  intros Hbody. induction pages as [|p pages IH]; intros a s s' Hs Hrun; simpl in *.
  - injection Hrun as <-. now rewrite Nat.add_0_r.
  - destruct (body (Z.of_nat a, p) s) as [s1|e] eqn:Hp; simpl in Hrun; [|discriminate].
    replace (a + S (List.length pages))%nat with (S a + List.length pages)%nat by lia.
    apply (IH (S a) s1 s'); [|exact Hrun].
    rewrite Nat2Z.inj_succ. apply (Hbody _ p s); assumption.
Qed.

Section OutlineFacts.

Variable db : UnicodeDB.
Variable fitz_open : str -> option Doc.

(** A line adds nothing, or the entry the classifier makes of it. *)
Lemma visit_line_appends (title : str) (body_font_size page_num : Z) (line : Line)
    (o o' : list Entry.t) :
  visit_line db title body_font_size page_num line o = Ret o' ->
  o' = o \/
  exists lv first_span rest,
    spans line = first_span :: rest
    /\ classify_heading db (line_text db line) first_span body_font_size
       = Ret (Some lv)
    /\ o' = o ++ [Entry.make lv (line_text db line) (page_num + 1)].
Proof.
  unfold visit_line.
  destruct (spans line) as [|first_span rest].
  { intros H. injection H as <-. now left. }
  destruct (_ && _).
  { intros H. injection H as <-. now left. }
  destruct (classify_heading db (line_text db line) first_span body_font_size)
    as [[lv|]|e] eqn:Hc; simpl; try discriminate.
  2:{ intros H. injection H as <-. now left. }
  destruct (existsb _ o); intros H; injection H as <-; [now left|].
  right. now exists lv, first_span, rest.
Qed.

(** A document of one page or more gives a structure, with the title that
    [choose_title] makes. *)
Lemma extract_structure_pages (pdf_path : str) (first : Page) (rest : list Page) :
  fitz_open pdf_path = Some (first :: rest) ->
  let doc := first :: rest in
  let body := analyze_font_styles doc in
  let title := choose_title db (find_title_block db body first) pdf_path in
  exists o,
    for_each (visit_page db title body) (enumerate doc) [] = Ret o
    /\ extract_structure_from_pdf db fitz_open pdf_path
       = Ret (Some {| title := title; outline := o |}).
Proof.
  intros Hopen doc body title.
  destruct (for_each_returns (visit_page db title body) (enumerate doc))
    with (s := @nil Entry.t) as [o Ho].
  { intros numbered t _. apply visit_page_returns, analyze_font_styles_pos. }
  exists o. split; [exact Ho|].
  unfold extract_structure_from_pdf. rewrite Hopen.
  fold doc. fold body. fold title. now rewrite Ho.
Qed.

(** Every entry of the outline of a document comes from one of its
    lines. *)
Lemma outline_from_lines (pdf_path : str) (doc : Doc) (s : Structure) :
  fitz_open pdf_path = Some doc ->
  extract_structure_from_pdf db fitz_open pdf_path = Ret (Some s) ->
  forall e, In e (outline s) -> entry_from_line db doc e.
Proof.
  intros Hopen Hs.
  apply extract_structure_Some in Hs as [[_ ->]|(first & rest & Hopen' & _ & Hrun)];
    [intros e []|].
  rewrite Hopen in Hopen'. injection Hopen' as ->.
  set (P := fun o : list Entry.t =>
              forall e, In e o -> entry_from_line db (first :: rest) e).
  change (P (outline s)).
  eapply (for_each_invariant P); [| |exact Hrun]; [|intros e []].
  intros [i p] o o' Hnum Ho Hpage. apply enumerate_In in Hnum as [Hi Hp].
  unfold visit_page in Hpage. simpl in Hpage.
  eapply (for_each_invariant P); [| |exact Hpage]; [|exact Ho].
  intros block t t' Hblock Ht Hvisit_block. unfold visit_block in Hvisit_block.
  eapply (for_each_invariant P); [| |exact Hvisit_block]; [|exact Ht].
  intros line w w' Hline Hw Hvisit e He.
  apply visit_line_appends in Hvisit
    as [->|(lv & first_span & more & Hspans & Hc & ->)]; [now apply Hw|].
  apply in_app_or in He as [He|[<-|[]]]; [now apply Hw|].
  exists p, block, line, first_span, more. simpl.
  rewrite Z.add_simpl_r.
  split; [lia|]. split; [exact Hp|]. split; [exact Hblock|].
  split; [exact Hline|]. split; [exact Hspans|]. split; [reflexivity | exact Hc].
Qed.

End OutlineFacts.

(** X11.  Extraction raises neither [IndexError] nor [ZeroDivisionError],
    whatever the document: the baseline it divides by is positive, and the
    first character of a text is read only when there is one. *)
Theorem extraction_never_raises (db : UnicodeDB) (fitz_open : str -> option Doc)
    (pdf_path : str) (e : PyExc) :
  extract_structure_from_pdf db fitz_open pdf_path <> Raise e.
Proof.
  destruct (extract_structure_returns db fitz_open pdf_path) as [r ->]. discriminate.
Qed.

(** X12.  Each entry of the outline comes from a line of the document: its
    page is the number of a page of the document, counted from 1, that has
    a line with a span, with the text of the entry, to which the
    classifier gives the level of the entry for the first span and the
    baseline of the document. *)
Theorem outline_entries_from_lines (db : UnicodeDB) (fitz_open : str -> option Doc)
    (pdf_path : str) (doc : Doc) (s : Structure) :
  fitz_open pdf_path = Some doc ->
  extract_structure_from_pdf db fitz_open pdf_path = Ret (Some s) ->
  forall e, In e (outline s) -> entry_from_line db doc e.
Proof. apply outline_from_lines. Qed.

Lemma outline_entries_from_lines_witness :
  Sample.files (u "/app/input/report.pdf") = Some Sample.report
  /\ forall e, In e (outline Sample.report_structure) ->
       entry_from_line ascii_only Sample.report e.
Proof.
  split; [reflexivity|].
  apply (outline_entries_from_lines ascii_only Sample.files
           (u "/app/input/report.pdf") Sample.report Sample.report_structure);
    reflexivity.
Defined.

(** X13.  The entries of an outline are in the order of the pages: the
    page numbers never decrease along the outline. *)
Theorem outline_pages_nondecreasing (db : UnicodeDB) (fitz_open : str -> option Doc)
    (pdf_path : str) (s : Structure) :
  extract_structure_from_pdf db fitz_open pdf_path = Ret (Some s) ->
  StronglySorted (fun e1 e2 => Entry.page e1 <= Entry.page e2) (outline s).
Proof.
  intros Hs.
  apply extract_structure_Some in Hs as [[_ ->]|(first & rest & _ & _ & Hrun)];
    [constructor|].
  set (le_page := fun e1 e2 => Entry.page e1 <= Entry.page e2).
  set (P := fun (i : Z) (o : list Entry.t) =>
              Forall (fun e => Entry.page e <= i) o /\ StronglySorted le_page o).
  assert (Hfinal : P (Z.of_nat (0 + List.length (first :: rest))) (outline s)).
  { eapply (for_each_numbered P); [| |exact Hrun]; [|split; constructor].
    intros i p o o' [Hle Hsorted] Hpage.
    set (R := fun o : list Entry.t =>
                Forall (fun e => Entry.page e <= i + 1) o /\ StronglySorted le_page o).
    change (R o').
    unfold visit_page in Hpage. simpl in Hpage.
    eapply (for_each_invariant R); [| |exact Hpage].
    - intros block t t' _ Ht Hblock. unfold visit_block in Hblock.
      eapply (for_each_invariant R); [| |exact Hblock]; [|exact Ht].
      intros line w w' _ [Hw1 Hw2] Hvisit.
      apply visit_line_appends in Hvisit as [->|(lv & f & m & _ & _ & ->)];
        [now split|].
      split.
      + apply Forall_app. split; [exact Hw1|]. constructor; [simpl; lia | constructor].
      + apply StronglySorted_snoc; [exact Hw2|]. exact Hw1.
    - split; [|exact Hsorted].
      eapply Forall_impl; [|exact Hle]. simpl. intros; lia. }
  exact (proj2 Hfinal).
Qed.

Lemma outline_pages_nondecreasing_witness :
  extract_structure_from_pdf ascii_only Sample.files (u "/app/input/report.pdf")
  = Ret (Some Sample.report_structure)
  /\ StronglySorted (fun e1 e2 => Entry.page e1 <= Entry.page e2)
       (outline Sample.report_structure).
Proof.
  split; [reflexivity|].
  apply (outline_pages_nondecreasing ascii_only Sample.files (u "/app/input/report.pdf")).
  reflexivity.
Defined.

(** X14.  The text of an entry of the outline has no space at either end,
    3 characters at least and 8 words at most, and begins with an
    upper-case letter or a digit. *)
Theorem outline_texts_shape (db : UnicodeDB) (fitz_open : str -> option Doc)
    (pdf_path : str) (s : Structure) :
  extract_structure_from_pdf db fitz_open pdf_path = Ret (Some s) ->
  forall e, In e (outline s) ->
    strip db (Entry.text e) = Entry.text e
    /\ 3 <= len (Entry.text e)
    /\ len (split db (Entry.text e)) <= 8
    /\ exists c r, Entry.text e = c :: r
                   /\ (ch_isupper db c = true \/ ch_isdigit db c = true).
Proof.
  intros Hs e He.
  destruct (fitz_open pdf_path) as [doc|] eqn:Hopen.
  2:{ unfold extract_structure_from_pdf in Hs. rewrite Hopen in Hs. discriminate. }
  destruct (outline_from_lines db fitz_open pdf_path doc s Hopen Hs e He)
    as (p & block & line & first_span & rest & _ & _ & _ & _ & _ & Ht & Hc).
  assert (Hstrip : strip db (Entry.text e) = Entry.text e).
  { rewrite Ht. unfold line_text. apply strip_idempotent. }
  apply classify_heading_passes in Hc. rewrite <- Ht, Hstrip in Hc.
  apply rejected_false in Hc as (H3 & H8 & Hfirst & _).
  auto.
Qed.

Lemma outline_texts_shape_witness :
  extract_structure_from_pdf ascii_only Sample.files (u "/app/input/report.pdf")
  = Ret (Some Sample.report_structure)
  /\ forall e, In e (outline Sample.report_structure) ->
       strip ascii_only (Entry.text e) = Entry.text e.
Proof.
  split; [reflexivity|].
  intros e He.
  apply (outline_texts_shape ascii_only Sample.files (u "/app/input/report.pdf")
           Sample.report_structure eq_refl e He).
Defined.

(** X15.  The title of a document of one page or more is the base name of
    its path, or it is the text of the title block and has 5 characters at
    least. *)
Theorem title_is_basename_or_long (db : UnicodeDB) (fitz_open : str -> option Doc)
    (pdf_path : str) (first : Page) (rest : list Page) (s : Structure) :
  fitz_open pdf_path = Some (first :: rest) ->
  extract_structure_from_pdf db fitz_open pdf_path = Ret (Some s) ->
  title s = Path.basename pdf_path
  \/ (5 <= len (title s)
      /\ exists title_block,
           find_title_block db (analyze_font_styles (first :: rest)) first
           = Some title_block
           /\ title s = block_title db title_block).
Proof.
  intros Hopen Hs.
  destruct (extract_structure_pages db fitz_open pdf_path first rest Hopen)
    as (o & _ & Heq).
  rewrite Heq in Hs. injection Hs as <-. simpl.
  unfold choose_title.
  destruct (find_title_block db _ first) as [b|]; [|now left].
  destruct (negb (truthy (block_title db b))); simpl; [now left|].
  destruct (Z.ltb_spec (len (block_title db b)) 5) as [|H5]; [now left|].
  right. split; [exact H5|]. now exists b.
Qed.

Lemma title_is_basename_or_long_witness :
  Sample.files (u "/app/input/report.pdf") = Some Sample.report
  /\ (title Sample.report_structure = Path.basename (u "/app/input/report.pdf")
      \/ (5 <= len (title Sample.report_structure)
          /\ exists title_block,
               find_title_block ascii_only (analyze_font_styles Sample.report)
                 MoreSamples.report_first_page = Some title_block
               /\ title Sample.report_structure = block_title ascii_only title_block)).
Proof.
  split; [reflexivity|].
  apply (title_is_basename_or_long ascii_only Sample.files (u "/app/input/report.pdf")
           MoreSamples.report_first_page (tl Sample.report) Sample.report_structure);
    reflexivity.
Defined.

(** ** [main] *)

Lemma rfind_from_absent (c : N) (s : str) (i found : Z) :
  ~ In c s -> Path.rfind_from c s i found = found.
Proof.
  revert i found; induction s as [|x s IH]; intros i found Hc; simpl; [reflexivity|].
  destruct (N.eqb_spec x c) as [->|Hx]; [exfalso; apply Hc; now left|].
  apply IH. intros H. apply Hc. now right.
Qed.

Lemma rfind_from_last (c : N) (l f : str) (i found : Z) :
  ~ In c f -> Path.rfind_from c (l ++ c :: f) i found = i + len l.
Proof.
  intros Hc. revert i found; induction l as [|x l IH]; intros i found; simpl.
  - rewrite N.eqb_refl, rfind_from_absent by exact Hc. unfold len. simpl. lia.
  - rewrite IH. unfold len. simpl List.length. lia.
Qed.

(** The base name of a file of the input directory is its name in the
    listing. *)
Lemma basename_join_input_dir (filename : str) :
  ~ In Path.sep filename ->
  Path.basename (Path.join input_dir filename) = filename.
Proof.
  intros Hc.
  assert (Hjoin : Path.join input_dir filename = input_dir ++ Path.sep :: filename).
  { unfold Path.join. destruct filename as [|c r]; [reflexivity|].
    change (startswith (c :: r) [Path.sep])
      with ((Path.sep =? c)%N && startswith r []).
    destruct (N.eqb_spec Path.sep c) as [<-|_]; [|reflexivity].
    exfalso. apply Hc. now left. }
  rewrite Hjoin. unfold Path.basename, Path.rfind.
  rewrite rfind_from_last by exact Hc. reflexivity.
Qed.

Section MainFacts.

Variable db : UnicodeDB.
Variable fitz_open : str -> option Doc.

Lemma main_step_written (filename : str) (written : list (str * Structure)) :
  main_step db fitz_open filename written
  = Ret (written ++ written_for db fitz_open filename).
Proof.
  unfold main_step, written_for.
  destruct (endswith _ _); [|now rewrite app_nil_r].
  destruct (extract_structure_returns db fitz_open (Path.join input_dir filename))
    as [[s|] ->]; simpl; [reflexivity | now rewrite app_nil_r].
Qed.

Lemma main_loop_written (listing : list str) (written : list (str * Structure)) :
  for_each (main_step db fitz_open) listing written
  = Ret (written ++ flat_map (written_for db fitz_open) listing).
Proof.
  revert written; induction listing as [|f listing IH]; intros written; simpl.
  - now rewrite app_nil_r.
  - rewrite main_step_written. simpl. rewrite IH. now rewrite app_assoc.
Qed.

End MainFacts.


(** X17.  Every file that [main] writes holds the structure that
    extraction returns for a name of the listing that ends in .pdf, under
    the name of that file with .json for its extension, in the output
    directory. *)
Theorem main_written_files (db : UnicodeDB) (fitz_open : str -> option Doc)
    (listing : list str) (written : list (str * Structure)) (path : str)
    (s : Structure) :
  main db fitz_open listing = Ret written ->
  In (path, s) written ->
  exists filename,
    In filename listing
    /\ endswith (lower db filename) (u ".pdf") = true
    /\ extract_structure_from_pdf db fitz_open (Path.join input_dir filename)
       = Ret (Some s)
    /\ path = Path.join output_dir (fst (Path.splitext filename) ++ u ".json").
Proof.
  unfold main. rewrite main_loop_written. intros H Hin.
  injection H as <-. simpl in Hin.
  apply in_flat_map in Hin as (filename & Hf & Hin).
  exists filename. split; [exact Hf|].
  unfold written_for in Hin.
  destruct (endswith _ _); [|destruct Hin].
  destruct (extract_structure_from_pdf db fitz_open _) as [[s'|]|e];
    [|destruct Hin|destruct Hin].
  destruct Hin as [Hin|[]]. injection Hin as <- <-. auto.
Qed.

Lemma main_written_files_witness :
  main ascii_only Sample.files [u "notes.txt"; u "scan.pdf"]
  = Ret [(u "/app/output/scan.json", {| title := u "scan.pdf"; outline := [] |})]
  /\ exists filename,
       In filename [u "notes.txt"; u "scan.pdf"]
       /\ endswith (lower ascii_only filename) (u ".pdf") = true
       /\ extract_structure_from_pdf ascii_only Sample.files
            (Path.join input_dir filename)
          = Ret (Some {| title := u "scan.pdf"; outline := [] |})
       /\ u "/app/output/scan.json"
          = Path.join output_dir (fst (Path.splitext filename) ++ u ".json").
Proof.
  split; [reflexivity|].
  apply (main_written_files ascii_only Sample.files [u "notes.txt"; u "scan.pdf"]
           [(u "/app/output/scan.json", {| title := u "scan.pdf"; outline := [] |})]).
  - reflexivity.
  - left. reflexivity.
Defined.

(** X18.  In a run of [main], the title of a document of one page or more
    that has no title block is the name of its file in the listing, as it
    is. *)
Theorem batch_fallback_title (db : UnicodeDB) (fitz_open : str -> option Doc)
    (filename : str) (first : Page) (rest : list Page) :
  ~ In Path.sep filename ->
  fitz_open (Path.join input_dir filename) = Some (first :: rest) ->
  find_title_block db (analyze_font_styles (first :: rest)) first = None ->
  exists o,
    extract_structure_from_pdf db fitz_open (Path.join input_dir filename)
    = Ret (Some {| title := filename; outline := o |}).
Proof.
  intros Hsep Hopen Hnone.
  destruct (extract_structure_pages db fitz_open _ first rest Hopen) as (o & _ & Heq).
  exists o. rewrite Heq. rewrite Hnone. unfold choose_title. simpl.
  now rewrite basename_join_input_dir.
Qed.

Lemma batch_fallback_title_witness :
  ~ In Path.sep (u "scan.pdf")
  /\ exists o,
       extract_structure_from_pdf ascii_only Sample.files
         (Path.join input_dir (u "scan.pdf"))
       = Ret (Some {| title := u "scan.pdf"; outline := o |}).
Proof.
  assert (Hsep : ~ In Path.sep (u "scan.pdf")).
  { simpl. intros H. repeat (destruct H as [H|H]; [discriminate H|]). exact H. }
  split; [exact Hsep|].
  apply (batch_fallback_title ascii_only Sample.files (u "scan.pdf")
           {| blocks := [Sample.image_block] |} [] Hsep); reflexivity.
Defined.

(** ** [parse_pdf_into_chunks] *)

Section CleanFacts.

Variable db : UnicodeDB.

Lemma sub_spaces_from_In (in_run : bool) (s : str) (c : N) :
  In c (sub_spaces_from db in_run s) -> ch_isspace db c = true -> c = 32%N.
Proof.
  revert in_run; induction s as [|x s IH]; intros in_run; simpl; [intros []|].
  destruct (ch_isspace db x) eqn:Hx.
  - destruct in_run; [apply IH|].
    intros [<-|Hin] Hc; [reflexivity | now apply (IH true)].
  - intros [<-|Hin] Hc; [congruence | now apply (IH false)].
Qed.

Lemma sub_spaces_from_well_spaced (in_run : bool) (s : str) :
  well_spaced db in_run (sub_spaces_from db in_run s).
Proof.
  revert in_run; induction s as [|x s IH]; intros in_run; simpl; [exact I|].
  destruct (ch_isspace db x) eqn:Hx.
  - destruct in_run; [apply IH|].
    simpl. split; [discriminate|]. apply (IH true).
  - simpl. split; [intros _; exact Hx|]. rewrite Hx. apply IH.
Qed.

Lemma well_spaced_adjacent (t pre post : str) (c1 c2 : N) (prev : bool) :
  well_spaced db prev t -> t = pre ++ c1 :: c2 :: post ->
  ch_isspace db c1 = true -> ch_isspace db c2 = false.
Proof.
  revert t prev; induction pre as [|x pre IH]; intros t prev Hw -> Hc1; simpl in Hw.
  - destruct Hw as [_ [H _]]. apply H. exact Hc1.
  - destruct Hw as [_ Hw]. eapply IH; eauto.
Qed.

Lemma sub_spaces_from_snoc (in_run : bool) (s : str) (z : N) :
  ch_isspace db z = false ->
  sub_spaces_from db in_run (s ++ [z]) = sub_spaces_from db in_run s ++ [z].
Proof.
  intros Hz. revert in_run; induction s as [|x s IH]; intros in_run; simpl.
  - now rewrite Hz.
  - destruct (ch_isspace db x); [destruct in_run|]; simpl; now rewrite IH.
Qed.

(** A stripped string is empty or ends with a code point that is no
    space. *)
Lemma strip_last (s : str) :
  strip db s = [] \/ exists w z, strip db s = w ++ [z] /\ ch_isspace db z = false.
Proof.
  unfold strip, rstrip.
  destruct (lstrip_head db (rev (lstrip db s))) as [->|(z & w & -> & Hz)];
    [now left|].
  right. exists (rev w), z. now split.
Qed.

(** A string that begins and ends with a code point that is no space is
    its own stripping. *)
Lemma strip_fixed (c z : N) (r w : str) :
  ch_isspace db c = false -> ch_isspace db z = false ->
  c :: r = w ++ [z] -> strip db (c :: r) = c :: r.
Proof.
  intros Hc Hz Heq. unfold strip, rstrip. simpl lstrip. rewrite Hc.
  rewrite Heq, rev_app_distr. simpl. rewrite Hz. simpl.
  now rewrite rev_involutive.
Qed.

(** Cleaning, lines 38-40, gives a text without a space at either end. *)
Lemma clean_stripped (s : str) :
  strip db (sub_spaces db (strip db s)) = sub_spaces db (strip db s).
Proof.
  destruct (strip_shape db s) as [->|(c & r & Hc & _ & Hs)]; [reflexivity|].
  destruct (strip_last s) as [Hnil|(w & z & Hw & Hz)]; [congruence|].
  unfold sub_spaces.
  assert (Hlast : sub_spaces_from db false (strip db s)
                  = sub_spaces_from db false w ++ [z]).
  { rewrite Hw. now apply sub_spaces_from_snoc. }
  assert (Hfirst : sub_spaces_from db false (strip db s)
                   = c :: sub_spaces_from db false (rev (lstrip db (rev r)))).
  { rewrite Hs. simpl. now rewrite Hc. }
  rewrite Hfirst. eapply strip_fixed; eauto.
  rewrite <- Hfirst. exact Hlast.
Qed.

End CleanFacts.

Lemma combine_seq_nth {A : Type} (l : list A) (a : nat) (i : Z) (x : A) :
  In (i, x) (combine (map Z.of_nat (seq a (List.length l))) l) ->
  exists j, i = Z.of_nat (a + j) /\ nth_error l j = Some x.
Proof.
  revert a; induction l as [|y l IH]; intros a; simpl; [intros []|].
  intros [H|H].
  - injection H as <- <-. exists 0%nat. split; [f_equal; lia | reflexivity].
  - destruct (IH (S a) H) as (j & -> & Hj). exists (S j).
    split; [f_equal; lia | exact Hj].
Qed.

Section ChunkFacts.

Variable db : UnicodeDB.
Variable pdf_path : str.

Lemma fold_add_chunk_In (page_num : Z) (l : list (Z * str))
    (chunks : list Chunk.t) (c : Chunk.t) :
  In c (fold_left (add_chunk db pdf_path page_num) l chunks) ->
  In c chunks
  \/ exists i block4,
       In (i, block4) l /\ 50 < len (sub_spaces db (strip db block4))
       /\ c = chunk_of db pdf_path page_num i block4.
Proof.
  revert chunks; induction l as [|[i b] l IH]; intros chunks; simpl; [now left|].
  intros Hin. apply IH in Hin as [Hin|(i' & b' & Hl & Hlen & Hc)].
  - unfold add_chunk in Hin. simpl in Hin.
    destruct (Z.ltb_spec 50 (len (sub_spaces db (strip db b)))) as [Hlen|_];
      [|now left].
    apply in_app_or in Hin as [Hin|[<-|[]]]; [now left|].
    right. exists i, b. auto.
  - right. exists i', b'. auto.
Qed.

Lemma parse_pages_from (pages pre : TextDoc) (chunks : list Chunk.t) :
  (forall c, In c chunks ->
     chunk_from_block db pdf_path (pre ++ pages) c /\ 50 < len (Chunk.text c)) ->
  forall c, In c (parse_pages db pdf_path (len pre) pages chunks) ->
    chunk_from_block db pdf_path (pre ++ pages) c /\ 50 < len (Chunk.text c).
Proof.
  revert pre chunks; induction pages as [|[blocks|] rest IH];
    intros pre chunks Hchunks; simpl; try exact Hchunks.
  assert (Hlen : len (pre ++ [Some blocks]) = len pre + 1).
  { unfold len. rewrite length_app. simpl. lia. }
  rewrite <- Hlen.
  replace (pre ++ Some blocks :: rest) with ((pre ++ [Some blocks]) ++ rest)
    in * by (now rewrite <- app_assoc).
  apply IH. intros c Hc.
  apply fold_add_chunk_In in Hc as [Hc|(i & b & Hin & H50 & ->)];
    [now apply Hchunks|].
  split; [|exact H50].
  apply combine_seq_nth in Hin as (j & -> & Hj).
  exists blocks, j, b. simpl.
  split.
  { unfold len. rewrite !length_app. simpl. lia. }
  split.
  { rewrite Z.add_simpl_r. unfold len. rewrite Nat2Z.id.
    rewrite <- app_assoc. simpl.
    rewrite nth_error_app2 by lia. now rewrite Nat.sub_diag. }
  repeat split; auto.
Qed.

Lemma parse_pages_stops (pre post : TextDoc) (page_num : Z) (chunks : list Chunk.t) :
  parse_pages db pdf_path page_num (pre ++ None :: post) chunks
  = parse_pages db pdf_path page_num pre chunks.
Proof.
  revert page_num chunks; induction pre as [|[blocks|] pre IH];
    intros page_num chunks; simpl; auto.
Qed.

End ChunkFacts.

(** X19.  Every chunk of a document comes from a block of one of its pages:
    it has the base name of the path, the number of the page counted from
    1, the identifier made of the base name, the page number and the index
    of the block, and the cleaned text of the block, which has more than
    50 characters. *)
Theorem chunks_from_blocks (db : UnicodeDB) (fitz_open : str -> option TextDoc)
    (pdf_path : str) (doc : TextDoc) (c : Chunk.t) :
  fitz_open pdf_path = Some doc ->
  In c (parse_pdf_into_chunks db fitz_open pdf_path) ->
  chunk_from_block db pdf_path doc c /\ 50 < len (Chunk.text c).
Proof.
  unfold parse_pdf_into_chunks. intros -> Hc.
  apply (parse_pages_from db pdf_path doc [] []); [intros c' []|exact Hc].
Qed.

Lemma chunks_from_blocks_witness :
  TextSamples.files (u "/app/input/docs/minutes.pdf") = Some TextSamples.minutes
  /\ forall c,
       In c (parse_pdf_into_chunks ascii_only TextSamples.files
               (u "/app/input/docs/minutes.pdf")) ->
       chunk_from_block ascii_only (u "/app/input/docs/minutes.pdf")
         TextSamples.minutes c
       /\ 50 < len (Chunk.text c).
Proof.
  split; [reflexivity|].
  intros c.
  apply (chunks_from_blocks ascii_only TextSamples.files
           (u "/app/input/docs/minutes.pdf") TextSamples.minutes c).
  reflexivity.
Defined.

(** X20.  The text of a chunk is clean: it has no space at either end, its
    only space characters are plain spaces (U+0020), and no two of them
    are next to one another. *)
Theorem chunk_text_clean (db : UnicodeDB) (fitz_open : str -> option TextDoc)
    (pdf_path : str) (c : Chunk.t) :
  In c (parse_pdf_into_chunks db fitz_open pdf_path) ->
  strip db (Chunk.text c) = Chunk.text c
  /\ (forall x, In x (Chunk.text c) -> ch_isspace db x = true -> x = 32%N)
  /\ (forall pre c1 c2 post,
        Chunk.text c = pre ++ c1 :: c2 :: post ->
        ch_isspace db c1 = true -> ch_isspace db c2 = false).
Proof.
  unfold parse_pdf_into_chunks.
  destruct (fitz_open pdf_path) as [doc|]; [|intros []].
  intros Hc.
  destruct (parse_pages_from db pdf_path doc [] []
              (fun c' (H : In c' []) => match H with end) c Hc)
    as [(blocks & i & b & _ & _ & _ & -> & _) _].
  split; [apply clean_stripped|]. split.
  - intros x. apply sub_spaces_from_In.
  - intros pre c1 c2 post. apply well_spaced_adjacent with (prev := false).
    apply sub_spaces_from_well_spaced.
Qed.

Lemma chunk_text_clean_witness :
  In TextSamples.first_chunk
    (parse_pdf_into_chunks ascii_only TextSamples.files
       (u "/app/input/docs/minutes.pdf"))
  /\ strip ascii_only (Chunk.text TextSamples.first_chunk)
     = Chunk.text TextSamples.first_chunk.
Proof.
  assert (Hin : In TextSamples.first_chunk
                  (parse_pdf_into_chunks ascii_only TextSamples.files
                     (u "/app/input/docs/minutes.pdf"))).
  { left. reflexivity. }
  split; [exact Hin|].
  apply (chunk_text_clean ascii_only TextSamples.files
           (u "/app/input/docs/minutes.pdf") TextSamples.first_chunk Hin).
Defined.

(** X21.  A page that cannot be read ends the parsing of its document
    without an exception: the chunks are those of the pages before it, and
    the pages after it give none. *)
Theorem chunks_up_to_unreadable_page (db : UnicodeDB)
    (fitz_open : str -> option TextDoc) (pdf_path : str) (pre post : TextDoc) :
  fitz_open pdf_path = Some (pre ++ None :: post) ->
  parse_pdf_into_chunks db fitz_open pdf_path
  = parse_pdf_into_chunks db (fun _ => Some pre) pdf_path.
Proof.
  unfold parse_pdf_into_chunks. intros ->. apply parse_pages_stops.
Qed.

Lemma chunks_up_to_unreadable_page_witness :
  TextSamples.files (u "/app/input/docs/damaged.pdf")
  = Some ([Some [u "Minutes"; TextSamples.paragraph]]
          ++ None :: [Some [TextSamples.paragraph]])
  /\ parse_pdf_into_chunks ascii_only TextSamples.files
       (u "/app/input/docs/damaged.pdf")
     = parse_pdf_into_chunks ascii_only
         (fun _ => Some [Some [u "Minutes"; TextSamples.paragraph]])
         (u "/app/input/docs/damaged.pdf").
Proof.
  split; [reflexivity|].
  apply (chunks_up_to_unreadable_page ascii_only TextSamples.files
           (u "/app/input/docs/damaged.pdf")
           [Some [u "Minutes"; TextSamples.paragraph]]
           [Some [TextSamples.paragraph]]).
  reflexivity.
Defined.

(** ** The ranking of the hits *)

Lemma mem_In (k : str * Z) (added : list (str * Z)) :
  Ranking.mem k added = true <-> In k added.
Proof.
  unfold Ranking.mem. rewrite existsb_exists. split.
  - intros ([d p] & Hin & H). apply andb_true_iff in H as [Hd Hp].
    apply str_eqb_eq in Hd. apply Z.eqb_eq in Hp. simpl in Hd, Hp.
    destruct k as [d' p']. simpl in *. now subst.
  - intros Hin. exists k. split; [exact Hin|].
    apply andb_true_iff. split; [now apply str_eqb_eq | apply Z.eqb_refl].
Qed.

Lemma getitem_In {A : Type} (l : list A) (i : Z) (x : A) :
  getitem l i = Ret x -> In x l.
Proof.
  unfold getitem. destruct (_ || _); [discriminate|].
  destruct (nth_error l _) as [y|] eqn:Hn; [|discriminate].
  intros H. injection H as <-. eapply nth_error_In; eauto.
Qed.

Lemma getitem_in_range {A : Type} (l : list A) (i : Z) :
  - len l <= i < len l -> exists x, getitem l i = Ret x.
Proof.
  intros Hi. unfold getitem.
  set (j := if i <? 0 then i + len l else i).
  assert (Hj : 0 <= j < len l).
  { unfold j. destruct (Z.ltb_spec i 0); lia. }
  destruct (Z.ltb_spec j 0) as [|_]; [lia|].
  destruct (Z.leb_spec (len l) j) as [|_]; [lia|]. simpl.
  destruct (nth_error l (Z.to_nat j)) as [x|] eqn:Hn; [now exists x|].
  apply nth_error_None in Hn. unfold len in Hj. lia.
Qed.

Lemma ranks_S (n : nat) : ranks (S n) = ranks n ++ [Z.of_nat n + 1].
Proof.
  unfold ranks. rewrite seq_S, map_app. simpl. do 2 f_equal. lia.
Qed.

Section RankingFacts.

Variable Score : Type.
Variable round4 : Score -> Score.
Variable all_chunks : list Chunk.t.

Lemma ranking_ok_init : ranking_ok all_chunks (Ranking.init Score).
Proof.
  unfold ranking_ok, Ranking.init. simpl.
  repeat split; try reflexivity; try (cbv; discriminate); try constructor;
    intros s [].
Qed.

Lemma visit_hit_ok (hit : Hit.t Score) (st st' : Ranking.state Score) :
  ranking_ok all_chunks st ->
  Ranking.visit_hit Score round4 all_chunks hit st = Ret st' ->
  ranking_ok all_chunks st'.
Proof.
  intros (Hs20 & Hsr & He10 & Her & Hrank & Hkeys & Hnd & Hext & Hsub).
  unfold Ranking.visit_hit.
  destruct (getitem all_chunks (Hit.corpus_id hit)) as [chunk|e] eqn:Hget;
    simpl; [|discriminate].
  apply getitem_In in Hget.
  set (subs := if len (Ranking.sub_section_analysis st) <? 20 then _ else _).
  assert (Hsubs : len subs <= 20
                  /\ map SubSection.importance_rank subs = ranks (List.length subs)
                  /\ forall s, In s subs ->
                       exists chunk, In chunk all_chunks
                         /\ SubSection.document s = Chunk.doc_name chunk
                         /\ SubSection.page_number s = Chunk.page_num chunk
                         /\ SubSection.refined_text s = Chunk.text chunk).
  { unfold subs.
    destruct (Z.ltb_spec (len (Ranking.sub_section_analysis st)) 20) as [Hlt|_];
      [|auto].
    split; [unfold len in *; rewrite length_app; simpl; lia|]. split.
    - rewrite map_app, length_app, Hsr. simpl.
      rewrite Nat.add_1_r, ranks_S. reflexivity.
    - intros s Hs. apply in_app_or in Hs as [Hs|[<-|[]]]; [now apply Hsub|].
      exists chunk. simpl. auto. }
  destruct Hsubs as (Hs20' & Hsr' & Hsub').
  destruct (negb (Ranking.mem _ (Ranking.added_sections st))) eqn:Hmem; simpl.
  - destruct (Z.ltb_spec (len (Ranking.extracted_sections st)) 10) as [Hlt|_];
      intros H; injection H as <-; unfold ranking_ok; simpl.
    + split; [exact Hs20'|]. split; [exact Hsr'|].
      split; [unfold len in *; rewrite length_app; simpl; lia|].
      split.
      { rewrite map_app, length_app, Her. simpl.
        rewrite Nat.add_1_r, ranks_S, Hrank. reflexivity. }
      split; [unfold len in *; rewrite length_app; simpl; lia|].
      split; [rewrite map_app, Hkeys; reflexivity|].
      split.
      { constructor; [|exact Hnd].
        intros Hin. apply mem_In in Hin. rewrite Hin in Hmem. discriminate. }
      split; [|exact Hsub'].
      intros s Hs. apply in_app_or in Hs as [Hs|[<-|[]]]; [now apply Hext|].
      exists chunk. simpl. auto.
    + repeat (split; [assumption|]). exact Hsub'.
  - intros H; injection H as <-; unfold ranking_ok; simpl.
    repeat (split; [assumption|]). exact Hsub'.
Qed.

Lemma rank_hits_ok (hits : list (Hit.t Score)) (st : Ranking.state Score) :
  Ranking.rank_hits Score round4 all_chunks hits = Ret st ->
  ranking_ok all_chunks st.
Proof.
  unfold Ranking.rank_hits. intros Hrun.
  eapply (for_each_invariant (ranking_ok all_chunks)); [| |exact Hrun].
  - intros hit s s' _. apply visit_hit_ok.
  - apply ranking_ok_init.
Qed.

(** Each hit adds one entry to [sub_section_analysis], until there are
    20. *)
Lemma visit_hit_count (hit : Hit.t Score) (st st' : Ranking.state Score) :
  Ranking.visit_hit Score round4 all_chunks hit st = Ret st' ->
  len (Ranking.sub_section_analysis st) <= 20 ->
  len (Ranking.sub_section_analysis st')
  = Z.min 20 (len (Ranking.sub_section_analysis st) + 1).
Proof.
  unfold Ranking.visit_hit.
  destruct (getitem all_chunks (Hit.corpus_id hit)) as [chunk|e]; simpl;
    [|discriminate].
  intros H H20.
  assert (Hsubs : len (Ranking.sub_section_analysis st')
                  = len (if len (Ranking.sub_section_analysis st) <? 20
                         then Ranking.sub_section_analysis st ++
                              [SubSection.make (Chunk.doc_name chunk)
                                 (Chunk.page_num chunk) (Chunk.text chunk)
                                 (len (Ranking.sub_section_analysis st) + 1)
                                 (round4 (Hit.score hit))]
                         else Ranking.sub_section_analysis st)).
  { destruct (_ && _); injection H as <-; reflexivity. }
  rewrite Hsubs.
  destruct (Z.ltb_spec (len (Ranking.sub_section_analysis st)) 20).
  - unfold len in *. rewrite length_app. simpl. lia.
  - lia.
Qed.

Lemma for_each_visit_hit_count (hits : list (Hit.t Score))
    (st st' : Ranking.state Score) :
  for_each (Ranking.visit_hit Score round4 all_chunks) hits st = Ret st' ->
  len (Ranking.sub_section_analysis st) <= 20 ->
  len (Ranking.sub_section_analysis st')
  = Z.min 20 (len (Ranking.sub_section_analysis st) + len hits).
Proof.
  revert st; induction hits as [|hit hits IH]; intros st; simpl.
  - intros H H20. injection H as <-.
    change (len (@nil (Hit.t Score))) with 0. lia.
  - destruct (Ranking.visit_hit Score round4 all_chunks hit st) as [s1|e] eqn:Hv;
      simpl; [|discriminate].
    intros Hrun H20.
    pose proof (visit_hit_count hit st s1 Hv H20) as H1.
    assert (Hl : len (hit :: hits) = len hits + 1)
      by (unfold len; simpl List.length; lia).
    pose proof (len_nonneg hits).
    rewrite (IH s1 Hrun) by lia.
    rewrite H1, Hl. lia.
Qed.

Lemma for_each_visit_hit_returns (hits : list (Hit.t Score)) (st : Ranking.state Score) :
  (forall hit, In hit hits ->
     - len all_chunks <= Hit.corpus_id hit < len all_chunks) ->
  exists st', for_each (Ranking.visit_hit Score round4 all_chunks) hits st = Ret st'.
Proof.
  intros Hrange. apply for_each_returns. intros hit s Hin.
  unfold Ranking.visit_hit.
  destruct (getitem_in_range all_chunks (Hit.corpus_id hit) (Hrange hit Hin))
    as [chunk ->]. simpl.
  destruct (_ && _); eauto.
Qed.

End RankingFacts.

Example hits_ranked :
  Ranking.rank_hits Z (fun x => x) TextSamples.chunks TextSamples.hits
  = Ret TextSamples.ranked.
Proof. reflexivity. Qed.

Example hit_out_of_range :
  Ranking.rank_hits Z (fun x => x) TextSamples.chunks [Hit.make 3 500]
  = Raise IndexError.
Proof. reflexivity. Qed.

(** X22.  When every hit names a chunk, by an index of the list of chunks
    counted from its start or, negative, from its end, the ranking raises
    no exception. *)
Theorem rank_hits_returns (Score : Type) (round4 : Score -> Score)
    (all_chunks : list Chunk.t) (hits : list (Hit.t Score)) :
  (forall hit, In hit hits ->
     - len all_chunks <= Hit.corpus_id hit < len all_chunks) ->
  exists st, Ranking.rank_hits Score round4 all_chunks hits = Ret st.
Proof.
  intros Hrange. unfold Ranking.rank_hits.
  now apply for_each_visit_hit_returns.
Qed.

Lemma rank_hits_returns_witness :
  (forall hit, In hit TextSamples.hits ->
     - len TextSamples.chunks <= Hit.corpus_id hit < len TextSamples.chunks)
  /\ exists st,
       Ranking.rank_hits Z (fun x => x) TextSamples.chunks TextSamples.hits = Ret st.
Proof.
  assert (Hrange : forall hit, In hit TextSamples.hits ->
            - len TextSamples.chunks <= Hit.corpus_id hit < len TextSamples.chunks).
  { intros hit Hin. simpl in Hin.
    destruct Hin as [<-|[<-|[<-|[]]]]; vm_compute; split; congruence. }
  split; [exact Hrange|].
  apply (rank_hits_returns Z (fun x => x) TextSamples.chunks TextSamples.hits Hrange).
Defined.

(** X23.  [sub_section_analysis] has one entry for each of the first 20
    hits, with the importance ranks 1, 2, 3, ... in this order, each entry
    with the document, the page and the text of a chunk. *)
Theorem sub_sections_first_20 (Score : Type) (round4 : Score -> Score)
    (all_chunks : list Chunk.t) (hits : list (Hit.t Score))
    (st : Ranking.state Score) :
  Ranking.rank_hits Score round4 all_chunks hits = Ret st ->
  len (Ranking.sub_section_analysis st) = Z.min 20 (len hits)
  /\ map SubSection.importance_rank (Ranking.sub_section_analysis st)
     = ranks (List.length (Ranking.sub_section_analysis st))
  /\ forall s, In s (Ranking.sub_section_analysis st) ->
       exists chunk, In chunk all_chunks
         /\ SubSection.document s = Chunk.doc_name chunk
         /\ SubSection.page_number s = Chunk.page_num chunk
         /\ SubSection.refined_text s = Chunk.text chunk.
Proof.
  intros Hrun.
  destruct (rank_hits_ok Score round4 all_chunks hits st Hrun)
    as (_ & Hsr & _ & _ & _ & _ & _ & _ & Hsub).
  split; [|split; assumption].
  unfold Ranking.rank_hits in Hrun.
  rewrite (for_each_visit_hit_count Score round4 all_chunks hits _ st Hrun).
  - reflexivity.
  - cbv. discriminate.
Qed.

Lemma sub_sections_first_20_witness :
  Ranking.rank_hits Z (fun x => x) TextSamples.chunks TextSamples.hits
  = Ret TextSamples.ranked
  /\ len (Ranking.sub_section_analysis TextSamples.ranked)
     = Z.min 20 (len TextSamples.hits).
Proof.
  split; [reflexivity|].
  apply (sub_sections_first_20 Z (fun x => x) TextSamples.chunks TextSamples.hits
           TextSamples.ranked).
  reflexivity.
Defined.

(** X24.  [extracted_sections] has 10 entries at most, with the importance
    ranks 1, 2, 3, ... in this order; no two of them have the same document
    and page; each has the document and the page of a chunk and the title
    "Content from page" with the number of that page. *)
Theorem extracted_sections_distinct (Score : Type) (round4 : Score -> Score)
    (all_chunks : list Chunk.t) (hits : list (Hit.t Score))
    (st : Ranking.state Score) :
  Ranking.rank_hits Score round4 all_chunks hits = Ret st ->
  len (Ranking.extracted_sections st) <= 10
  /\ map ExtractedSection.importance_rank (Ranking.extracted_sections st)
     = ranks (List.length (Ranking.extracted_sections st))
  /\ NoDup (map ExtractedSection.key (Ranking.extracted_sections st))
  /\ forall s, In s (Ranking.extracted_sections st) ->
       exists chunk, In chunk all_chunks
         /\ ExtractedSection.document s = Chunk.doc_name chunk
         /\ ExtractedSection.page_number s = Chunk.page_num chunk
         /\ ExtractedSection.section_title s
            = u "Content from page " ++ str_of_int (Chunk.page_num chunk).
Proof.
  intros Hrun.
  destruct (rank_hits_ok Score round4 all_chunks hits st Hrun)
    as (_ & _ & He10 & Her & _ & Hkeys & Hnd & Hext & _).
  split; [exact He10|]. split; [exact Her|]. split; [|exact Hext].
  rewrite Hkeys. now apply NoDup_rev.
Qed.

Lemma extracted_sections_distinct_witness :
  Ranking.rank_hits Z (fun x => x) TextSamples.chunks TextSamples.hits
  = Ret TextSamples.ranked
  /\ NoDup (map ExtractedSection.key (Ranking.extracted_sections TextSamples.ranked)).
Proof.
  split; [reflexivity|].
  apply (extracted_sections_distinct Z (fun x => x) TextSamples.chunks
           TextSamples.hits TextSamples.ranked).
  reflexivity.
Defined.

(** ** The identifiers of the chunks *)

Lemma u_injective (s1 s2 : string) : u s1 = u s2 -> s1 = s2.
Proof.
  unfold u. intros H.
  rewrite <- (string_of_list_ascii_of_string s1),
          <- (string_of_list_ascii_of_string s2).
  f_equal.
  revert H. generalize (list_ascii_of_string s1) (list_ascii_of_string s2).
  induction l as [|a l IH]; intros [|b l']; simpl; try discriminate; [reflexivity|].
  intros H. injection H as Hab Hl. f_equal; [|now apply IH].
  now rewrite <- (ascii_N_embedding a), <- (ascii_N_embedding b), Hab.
Qed.

Lemma to_int_not_nil (z : Z) :
  Z.to_int z <> Decimal.Pos Decimal.Nil /\ Z.to_int z <> Decimal.Neg Decimal.Nil.
Proof.
  destruct z as [|p|p]; simpl; split; try discriminate;
    intros H; injection H as H'; now apply Unsigned.to_uint_nonnil in H'.
Qed.

(** [str] of an integer tells the integer. *)
Lemma str_of_int_injective (z1 z2 : Z) : str_of_int z1 = str_of_int z2 -> z1 = z2.
Proof.
  unfold str_of_int. intros H. apply u_injective in H.
  apply to_int_inj.
  destruct (to_int_not_nil z1) as [Hp1 Hn1], (to_int_not_nil z2) as [Hp2 Hn2].
  pose proof (NilZero.isi _ Hp1 Hn1) as E1.
  pose proof (NilZero.isi _ Hp2 Hn2) as E2.
  rewrite H in E1. congruence.
Qed.

Lemma string_of_uint_no_underscore (d : Decimal.uint) (c : N) :
  In c (u (NilEmpty.string_of_uint d)) -> c <> 95%N.
Proof.
  induction d; simpl; [intros [] | ..]; (intros [<-|H]; [discriminate | auto]).
Qed.

(** It has no underscore. *)
Lemma str_of_int_no_underscore (z : Z) : ~ In 95%N (str_of_int z).
Proof.
  assert (Hu : forall d, ~ In 95%N (u (NilZero.string_of_uint d))).
  { intros d Hin. destruct d; simpl in Hin;
      try (destruct Hin as [Hin|Hin]; [discriminate|]);
      try (now apply string_of_uint_no_underscore in Hin);
      try exact Hin. }
  unfold str_of_int. destruct (Z.to_int z) as [d|d]; simpl.
  - apply Hu.
  - intros [H|H]; [discriminate | now apply Hu in H].
Qed.

Lemma app_split_at {A : Type} (x : A) (l1 l2 r1 r2 : list A) :
  l1 ++ x :: r1 = l2 ++ x :: r2 -> ~ In x l1 -> ~ In x l2 -> l1 = l2 /\ r1 = r2.
Proof.
  revert l2; induction l1 as [|a l1 IH]; intros [|b l2]; simpl; intros H H1 H2.
  - injection H as <-. now split.
  - injection H as <- _. exfalso. apply H2. now left.
  - injection H as -> _. exfalso. apply H1. now left.
  - injection H as <- H. destruct (IH l2 H) as [-> ->]; [tauto | tauto | now split].
Qed.

(** The identifier of a chunk tells its page and the index of its
    block. *)
Lemma chunk_id_injective (db : UnicodeDB) (pdf_path : str) (p1 p2 i1 i2 : Z)
    (b1 b2 : str) :
  Chunk.chunk_id (chunk_of db pdf_path p1 i1 b1)
  = Chunk.chunk_id (chunk_of db pdf_path p2 i2 b2) ->
  p1 = p2 /\ i1 = i2.
Proof.
  simpl. intros H. apply app_inv_head in H.
  change (u "_p") with [95%N; 112%N] in H.
  change (u "_b") with [95%N; 98%N] in H.
  simpl in H. injection H as H'.
  apply app_split_at in H' as [Hp Hi]; try apply str_of_int_no_underscore.
  injection Hi as Hi'.
  apply str_of_int_injective in Hp, Hi'. split; lia.
Qed.

Section ChunkIds.

Variable db : UnicodeDB.
Variable pdf_path : str.

Lemma fold_add_chunk_eq (page_num : Z) (l : list (Z * str)) (chunks : list Chunk.t) :
  fold_left (add_chunk db pdf_path page_num) l chunks
  = chunks ++ flat_map (block_chunks db pdf_path page_num) l.
Proof.
  revert chunks; induction l as [|ib l IH]; intros chunks; simpl.
  - now rewrite app_nil_r.
  - rewrite IH. unfold add_chunk, block_chunks, chunk_of.
    destruct (50 <? _); simpl; [now rewrite <- app_assoc | reflexivity].
Qed.

(** The loops of [parse_pdf_into_chunks] append the chunks of the blocks,
    page after page. *)
Lemma parse_pages_eq (pages : TextDoc) (page_num : Z) (chunks : list Chunk.t) :
  parse_pages db pdf_path page_num pages chunks
  = chunks ++ page_chunks db pdf_path page_num pages.
Proof.
  revert page_num chunks; induction pages as [|[blocks|] rest IH];
    intros page_num chunks; simpl; try now rewrite app_nil_r.
  now rewrite IH, fold_add_chunk_eq, app_assoc.
Qed.

Lemma block_chunks_In (page_num : Z) (l : list (Z * str)) (c : Chunk.t) :
  In c (flat_map (block_chunks db pdf_path page_num) l) ->
  exists i b, In (i, b) l /\ c = chunk_of db pdf_path page_num i b.
Proof.
  intros Hin. apply in_flat_map in Hin as ([i b] & Hl & Hc).
  unfold block_chunks in Hc. simpl in Hc.
  destruct (50 <? _); [|destruct Hc].
  destruct Hc as [<-|[]]. now exists i, b.
Qed.

Lemma page_chunks_In (pages : TextDoc) (page_num : Z) (c : Chunk.t) :
  In c (page_chunks db pdf_path page_num pages) ->
  exists p i b, page_num <= p /\ c = chunk_of db pdf_path p i b.
Proof.
  revert page_num; induction pages as [|[blocks|] rest IH]; intros page_num;
    simpl; try (intros []).
  intros Hin. apply in_app_or in Hin as [Hin|Hin].
  - apply block_chunks_In in Hin as (i & b & _ & ->).
    exists page_num, i, b. split; [lia | reflexivity].
  - apply IH in Hin as (p & i & b & Hp & ->).
    exists p, i, b. split; [lia | reflexivity].
Qed.

Lemma block_chunks_NoDup (page_num : Z) (l : list (Z * str)) :
  NoDup (map fst l) ->
  NoDup (map Chunk.chunk_id (flat_map (block_chunks db pdf_path page_num) l)).
Proof.
  induction l as [|[i b] l IH]; simpl; intros Hnd; [constructor|].
  inversion Hnd as [|? ? Hi Hl]; subst.
  unfold block_chunks at 1. simpl fst. simpl snd.
  destruct (50 <? _); [|now apply IH].
  cbn [app map]. constructor; [|now apply IH].
  intros Hin. apply in_map_iff in Hin as (c & Hid & Hc).
  apply block_chunks_In in Hc as (i' & b' & Hl' & ->).
  apply chunk_id_injective in Hid as [_ ->].
  apply Hi. change i with (fst (i, b')). now apply in_map.
Qed.

Lemma enumerate_blocks_NoDup (blocks : list str) :
  NoDup (map fst (enumerate_blocks blocks)).
Proof.
  unfold enumerate_blocks.
  assert (Hfst : forall (l1 : list Z) (l2 : list str),
             List.length l1 = List.length l2 -> map fst (combine l1 l2) = l1).
  { induction l1 as [|x l1 IH]; intros [|y l2]; simpl; try discriminate;
      [reflexivity|].
    intros H. injection H as H'. now rewrite IH. }
  rewrite Hfst by (now rewrite length_map, length_seq).
  apply NoDup_map_NoDup_ForallPairs; [|apply seq_NoDup].
  intros x y _ _ H. lia.
Qed.

Lemma page_chunks_NoDup (pages : TextDoc) (page_num : Z) :
  NoDup (map Chunk.chunk_id (page_chunks db pdf_path page_num pages)).
Proof.
  revert page_num; induction pages as [|[blocks|] rest IH]; intros page_num;
    simpl; try constructor.
  rewrite map_app. apply NoDup_app.
  - apply block_chunks_NoDup, enumerate_blocks_NoDup.
  - apply IH.
  - intros id Hid Hid'.
    apply in_map_iff in Hid as (c1 & <- & Hc1).
    apply in_map_iff in Hid' as (c2 & Heq & Hc2).
    apply block_chunks_In in Hc1 as (i1 & b1 & _ & ->).
    apply page_chunks_In in Hc2 as (p2 & i2 & b2 & Hp & ->).
    apply chunk_id_injective in Heq as [Hp' _]. lia.
Qed.

End ChunkIds.

(** X25.  No two chunks of a document have the same identifier. *)
Theorem chunk_ids_unique (db : UnicodeDB) (fitz_open : str -> option TextDoc)
    (pdf_path : str) :
  NoDup (map Chunk.chunk_id (parse_pdf_into_chunks db fitz_open pdf_path)).
Proof.
  unfold parse_pdf_into_chunks.
  destruct (fitz_open pdf_path) as [doc|]; [|constructor].
  rewrite parse_pages_eq. simpl. apply page_chunks_NoDup.
Qed.
